(** * Route registry and sidebar configuration of the MLOps documentation site

    The repository is a Docusaurus site.  Its structured artefacts are
    - the generated route tables ([export default [...]] arrays mapping a URL
      path to a component, nested routes and a sidebar association),
    - the hand-written sidebar configuration ([sidebars.tutorialSidebar]),
    - the site configuration and the home page,
    - the Markdown documents with the links between them,
    - the Dockerfile that serves the built bundle, and the deployment of
      the image as the documents describe it.

    This development embeds those artefacts as data, defines the structural
    invariants of route tables and sidebars both as propositions and as
    boolean checkers, and proves the checkers sound so that the committed
    tables are verified by evaluation.  The route builder and the sidebar
    composer themselves are not part of the repository (they belong to the
    documentation framework); they are modelled separately, further below,
    from their written contract. *)

From Stdlib Require Import Ascii.
From stdpp Require Import base decidable option list strings gmap.

(** ** Data model *)

(** [ComponentCreator(path, hash)]: an opaque loader reference.  The
    catch-all entry is created without a hash: [ComponentCreator('*')]. *)
Inductive Component : Type :=
  | ComponentCreator (cpath : string) (hash : option string).

#[local] Unset Elimination Schemes.

(** One object of a route table.  Fields follow the source: [path],
    [component], [exact], [routes], [sidebar].  The source writes [exact]
    only as [exact: true]; an absent [exact] reads as [undefined], which is
    falsy, and is modelled as [false].  [routes] and [sidebar] are absent
    ([None]) or present ([Some]). *)
Inductive Route : Type :=
  mkRoute {
    path : string;
    component : Component;
    exact : bool;
    routes : option (list Route);
    sidebar : option string
  }.

(** An item of [sidebars.tutorialSidebar]: a document id written as a
    string, or an object [{type: 'category', label, collapsed, items}]. *)
Inductive SidebarItem : Type :=
  | Doc (id : string)
  | Category (label : string) (collapsed : bool) (items : list SidebarItem).

#[local] Set Elimination Schemes.

(** ** The committed route tables *)

(** [src/unnamed/part_000], first document (lines 4-275). *)
Definition routes_part_000_first : list Route :=
  [
    mkRoute "/docs"
      (ComponentCreator "/docs" (Some "36f"))
      false (Some [
        mkRoute "/docs"
          (ComponentCreator "/docs" (Some "07a"))
          false (Some [
            mkRoute "/docs"
              (ComponentCreator "/docs" (Some "d9f"))
              false (Some [
                mkRoute "/docs/architecture/components"
                  (ComponentCreator "/docs/architecture/components" (Some "123"))
                  true None None;
                mkRoute "/docs/architecture/data-flow"
                  (ComponentCreator "/docs/architecture/data-flow" (Some "d38"))
                  true None None;
                mkRoute "/docs/architecture/overview"
                  (ComponentCreator "/docs/architecture/overview" (Some "685"))
                  true None None;
                mkRoute "/docs/deployment/docker"
                  (ComponentCreator "/docs/deployment/docker" (Some "bc6"))
                  true None None;
                mkRoute "/docs/deployment/kubernetes"
                  (ComponentCreator "/docs/deployment/kubernetes" (Some "3bf"))
                  true None None;
                mkRoute "/docs/deployment/production-setup"
                  (ComponentCreator "/docs/deployment/production-setup" (Some "e5f"))
                  true None None;
                mkRoute "/docs/development/contributing"
                  (ComponentCreator "/docs/development/contributing" (Some "98b"))
                  true None (Some "tutorialSidebar");
                mkRoute "/docs/development/local-setup"
                  (ComponentCreator "/docs/development/local-setup" (Some "7f8"))
                  true None (Some "tutorialSidebar");
                mkRoute "/docs/development/mlops-workflow"
                  (ComponentCreator "/docs/development/mlops-workflow" (Some "532"))
                  true None (Some "tutorialSidebar");
                mkRoute "/docs/getting-started/overview"
                  (ComponentCreator "/docs/getting-started/overview" (Some "3b4"))
                  true None (Some "tutorialSidebar");
                mkRoute "/docs/getting-started/quick-start"
                  (ComponentCreator "/docs/getting-started/quick-start" (Some "09c"))
                  true None (Some "tutorialSidebar");
                mkRoute "/docs/repositories/mlops-helm-charts"
                  (ComponentCreator "/docs/repositories/mlops-helm-charts" (Some "bdc"))
                  true None None;
                mkRoute "/docs/repositories/mlops-platform"
                  (ComponentCreator "/docs/repositories/mlops-platform" (Some "3c7"))
                  true None (Some "tutorialSidebar");
                mkRoute "/docs/repositories/mlops-research-template"
                  (ComponentCreator "/docs/repositories/mlops-research-template" (Some "673"))
                  true None None;
                mkRoute "/docs/repositories/overview"
                  (ComponentCreator "/docs/repositories/overview" (Some "16f"))
                  true None (Some "tutorialSidebar");
                mkRoute "/docs/researcher-guide/best-practices"
                  (ComponentCreator "/docs/researcher-guide/best-practices" (Some "316"))
                  true None (Some "tutorialSidebar");
                mkRoute "/docs/researcher-guide/overview"
                  (ComponentCreator "/docs/researcher-guide/overview" (Some "957"))
                  true None (Some "tutorialSidebar");
                mkRoute "/docs/researcher-guide/setup"
                  (ComponentCreator "/docs/researcher-guide/setup" (Some "70f"))
                  true None (Some "tutorialSidebar");
                mkRoute "/docs/researcher-guide/tracking-experiments"
                  (ComponentCreator "/docs/researcher-guide/tracking-experiments" (Some "557"))
                  true None (Some "tutorialSidebar");
                mkRoute "/docs/researcher-guide/training"
                  (ComponentCreator "/docs/researcher-guide/training" (Some "3f2"))
                  true None (Some "tutorialSidebar");
                mkRoute "/docs/tools/argocd"
                  (ComponentCreator "/docs/tools/argocd" (Some "75e"))
                  true None (Some "tutorialSidebar");
                mkRoute "/docs/tools/cassandra"
                  (ComponentCreator "/docs/tools/cassandra" (Some "05a"))
                  true None (Some "tutorialSidebar");
                mkRoute "/docs/tools/cicd"
                  (ComponentCreator "/docs/tools/cicd" (Some "e47"))
                  true None (Some "tutorialSidebar");
                mkRoute "/docs/tools/databases"
                  (ComponentCreator "/docs/tools/databases" (Some "b2b"))
                  true None None;
                mkRoute "/docs/tools/db-overview"
                  (ComponentCreator "/docs/tools/db-overview" (Some "231"))
                  true None (Some "tutorialSidebar");
                mkRoute "/docs/tools/docker"
                  (ComponentCreator "/docs/tools/docker" (Some "83a"))
                  true None (Some "tutorialSidebar");
                mkRoute "/docs/tools/dynamodb"
                  (ComponentCreator "/docs/tools/dynamodb" (Some "033"))
                  true None (Some "tutorialSidebar");
                mkRoute "/docs/tools/gpu-scheduling"
                  (ComponentCreator "/docs/tools/gpu-scheduling" (Some "e8d"))
                  true None (Some "tutorialSidebar");
                mkRoute "/docs/tools/helm"
                  (ComponentCreator "/docs/tools/helm" (Some "a79"))
                  true None (Some "tutorialSidebar");
                mkRoute "/docs/tools/influxdb"
                  (ComponentCreator "/docs/tools/influxdb" (Some "f2d"))
                  true None (Some "tutorialSidebar");
                mkRoute "/docs/tools/kubernetes"
                  (ComponentCreator "/docs/tools/kubernetes" (Some "6b6"))
                  true None (Some "tutorialSidebar");
                mkRoute "/docs/tools/memcached"
                  (ComponentCreator "/docs/tools/memcached" (Some "83f"))
                  true None (Some "tutorialSidebar");
                mkRoute "/docs/tools/message-queues"
                  (ComponentCreator "/docs/tools/message-queues" (Some "89a"))
                  true None (Some "tutorialSidebar");
                mkRoute "/docs/tools/minio"
                  (ComponentCreator "/docs/tools/minio" (Some "1d1"))
                  true None (Some "tutorialSidebar");
                mkRoute "/docs/tools/mlflow"
                  (ComponentCreator "/docs/tools/mlflow" (Some "a7c"))
                  true None (Some "tutorialSidebar");
                mkRoute "/docs/tools/mongodb"
                  (ComponentCreator "/docs/tools/mongodb" (Some "01a"))
                  true None (Some "tutorialSidebar");
                mkRoute "/docs/tools/monitoring"
                  (ComponentCreator "/docs/tools/monitoring" (Some "ece"))
                  true None (Some "tutorialSidebar");
                mkRoute "/docs/tools/mysql"
                  (ComponentCreator "/docs/tools/mysql" (Some "856"))
                  true None (Some "tutorialSidebar");
                mkRoute "/docs/tools/overview"
                  (ComponentCreator "/docs/tools/overview" (Some "efb"))
                  true None (Some "tutorialSidebar");
                mkRoute "/docs/tools/postgres"
                  (ComponentCreator "/docs/tools/postgres" (Some "f58"))
                  true None (Some "tutorialSidebar");
                mkRoute "/docs/tools/prometheus"
                  (ComponentCreator "/docs/tools/prometheus" (Some "8e3"))
                  true None (Some "tutorialSidebar");
                mkRoute "/docs/tools/redis"
                  (ComponentCreator "/docs/tools/redis" (Some "d33"))
                  true None (Some "tutorialSidebar")
              ]) None
          ]) None
      ]) None;
    mkRoute "/"
      (ComponentCreator "/" (Some "2e1"))
      true None None;
    mkRoute "*"
      (ComponentCreator "*" None)
      false None None
  ].

(** [src/unnamed/part_000], second document (lines 279-473); it also
    lists the debug routes. *)
Definition routes_part_000_second : list Route :=
  [
    mkRoute "/__docusaurus/debug"
      (ComponentCreator "/__docusaurus/debug" (Some "5ff"))
      true None None;
    mkRoute "/__docusaurus/debug/config"
      (ComponentCreator "/__docusaurus/debug/config" (Some "5ba"))
      true None None;
    mkRoute "/__docusaurus/debug/content"
      (ComponentCreator "/__docusaurus/debug/content" (Some "a2b"))
      true None None;
    mkRoute "/__docusaurus/debug/globalData"
      (ComponentCreator "/__docusaurus/debug/globalData" (Some "c3c"))
      true None None;
    mkRoute "/__docusaurus/debug/metadata"
      (ComponentCreator "/__docusaurus/debug/metadata" (Some "156"))
      true None None;
    mkRoute "/__docusaurus/debug/registry"
      (ComponentCreator "/__docusaurus/debug/registry" (Some "88c"))
      true None None;
    mkRoute "/__docusaurus/debug/routes"
      (ComponentCreator "/__docusaurus/debug/routes" (Some "000"))
      true None None;
    mkRoute "/docs"
      (ComponentCreator "/docs" (Some "68d"))
      false (Some [
        mkRoute "/docs"
          (ComponentCreator "/docs" (Some "ec3"))
          false (Some [
            mkRoute "/docs"
              (ComponentCreator "/docs" (Some "bb2"))
              false (Some [
                mkRoute "/docs/architecture/components"
                  (ComponentCreator "/docs/architecture/components" (Some "123"))
                  true None None;
                mkRoute "/docs/architecture/data-flow"
                  (ComponentCreator "/docs/architecture/data-flow" (Some "d38"))
                  true None None;
                mkRoute "/docs/architecture/overview"
                  (ComponentCreator "/docs/architecture/overview" (Some "685"))
                  true None None;
                mkRoute "/docs/deployment/docker"
                  (ComponentCreator "/docs/deployment/docker" (Some "bc6"))
                  true None None;
                mkRoute "/docs/deployment/kubernetes"
                  (ComponentCreator "/docs/deployment/kubernetes" (Some "3bf"))
                  true None None;
                mkRoute "/docs/deployment/production-setup"
                  (ComponentCreator "/docs/deployment/production-setup" (Some "e5f"))
                  true None None;
                mkRoute "/docs/development/contributing"
                  (ComponentCreator "/docs/development/contributing" (Some "582"))
                  true None None;
                mkRoute "/docs/development/local-setup"
                  (ComponentCreator "/docs/development/local-setup" (Some "cba"))
                  true None None;
                mkRoute "/docs/getting-started/overview"
                  (ComponentCreator "/docs/getting-started/overview" (Some "3b4"))
                  true None (Some "tutorialSidebar");
                mkRoute "/docs/getting-started/quick-start"
                  (ComponentCreator "/docs/getting-started/quick-start" (Some "09c"))
                  true None (Some "tutorialSidebar");
                mkRoute "/docs/repositories/mlops-helm-charts"
                  (ComponentCreator "/docs/repositories/mlops-helm-charts" (Some "bdc"))
                  true None None;
                mkRoute "/docs/repositories/mlops-platform"
                  (ComponentCreator "/docs/repositories/mlops-platform" (Some "3c7"))
                  true None (Some "tutorialSidebar");
                mkRoute "/docs/repositories/mlops-research-template"
                  (ComponentCreator "/docs/repositories/mlops-research-template" (Some "673"))
                  true None None;
                mkRoute "/docs/repositories/overview"
                  (ComponentCreator "/docs/repositories/overview" (Some "16f"))
                  true None (Some "tutorialSidebar");
                mkRoute "/docs/researcher-guide/best-practices"
                  (ComponentCreator "/docs/researcher-guide/best-practices" (Some "4af"))
                  true None None;
                mkRoute "/docs/researcher-guide/overview"
                  (ComponentCreator "/docs/researcher-guide/overview" (Some "93d"))
                  true None None;
                mkRoute "/docs/researcher-guide/setup"
                  (ComponentCreator "/docs/researcher-guide/setup" (Some "4e4"))
                  true None None;
                mkRoute "/docs/researcher-guide/tracking-experiments"
                  (ComponentCreator "/docs/researcher-guide/tracking-experiments" (Some "d43"))
                  true None None;
                mkRoute "/docs/researcher-guide/training"
                  (ComponentCreator "/docs/researcher-guide/training" (Some "e0d"))
                  true None None;
                mkRoute "/docs/tools/docker"
                  (ComponentCreator "/docs/tools/docker" (Some "1b7"))
                  true None None;
                mkRoute "/docs/tools/kubernetes"
                  (ComponentCreator "/docs/tools/kubernetes" (Some "824"))
                  true None None;
                mkRoute "/docs/tools/minio"
                  (ComponentCreator "/docs/tools/minio" (Some "c80"))
                  true None None;
                mkRoute "/docs/tools/mlflow"
                  (ComponentCreator "/docs/tools/mlflow" (Some "a7c"))
                  true None (Some "tutorialSidebar");
                mkRoute "/docs/tools/overview"
                  (ComponentCreator "/docs/tools/overview" (Some "efb"))
                  true None (Some "tutorialSidebar");
                mkRoute "/docs/tools/postgres"
                  (ComponentCreator "/docs/tools/postgres" (Some "e44"))
                  true None None
              ]) None
          ]) None
      ]) None;
    mkRoute "/"
      (ComponentCreator "/" (Some "2e1"))
      true None None;
    mkRoute "*"
      (ComponentCreator "*" None)
      false None None
  ].

(** [src/unnamed/part_001] (lines 4-192). *)
Definition routes_part_001 : list Route :=
  [
    mkRoute "/docs"
      (ComponentCreator "/docs" (Some "6b8"))
      false (Some [
        mkRoute "/docs"
          (ComponentCreator "/docs" (Some "aef"))
          false (Some [
            mkRoute "/docs"
              (ComponentCreator "/docs" (Some "981"))
              false (Some [
                mkRoute "/docs/architecture/components"
                  (ComponentCreator "/docs/architecture/components" (Some "123"))
                  true None None;
                mkRoute "/docs/architecture/data-flow"
                  (ComponentCreator "/docs/architecture/data-flow" (Some "d38"))
                  true None None;
                mkRoute "/docs/architecture/overview"
                  (ComponentCreator "/docs/architecture/overview" (Some "685"))
                  true None None;
                mkRoute "/docs/deployment/docker"
                  (ComponentCreator "/docs/deployment/docker" (Some "bc6"))
                  true None None;
                mkRoute "/docs/deployment/kubernetes"
                  (ComponentCreator "/docs/deployment/kubernetes" (Some "3bf"))
                  true None None;
                mkRoute "/docs/deployment/production-setup"
                  (ComponentCreator "/docs/deployment/production-setup" (Some "e5f"))
                  true None None;
                mkRoute "/docs/development/contributing"
                  (ComponentCreator "/docs/development/contributing" (Some "98b"))
                  true None (Some "tutorialSidebar");
                mkRoute "/docs/development/local-setup"
                  (ComponentCreator "/docs/development/local-setup" (Some "7f8"))
                  true None (Some "tutorialSidebar");
                mkRoute "/docs/development/mlops-workflow"
                  (ComponentCreator "/docs/development/mlops-workflow" (Some "532"))
                  true None (Some "tutorialSidebar");
                mkRoute "/docs/getting-started/overview"
                  (ComponentCreator "/docs/getting-started/overview" (Some "3b4"))
                  true None (Some "tutorialSidebar");
                mkRoute "/docs/getting-started/quick-start"
                  (ComponentCreator "/docs/getting-started/quick-start" (Some "09c"))
                  true None (Some "tutorialSidebar");
                mkRoute "/docs/repositories/mlops-helm-charts"
                  (ComponentCreator "/docs/repositories/mlops-helm-charts" (Some "bdc"))
                  true None None;
                mkRoute "/docs/repositories/mlops-platform"
                  (ComponentCreator "/docs/repositories/mlops-platform" (Some "3c7"))
                  true None (Some "tutorialSidebar");
                mkRoute "/docs/repositories/mlops-research-template"
                  (ComponentCreator "/docs/repositories/mlops-research-template" (Some "673"))
                  true None None;
                mkRoute "/docs/repositories/overview"
                  (ComponentCreator "/docs/repositories/overview" (Some "16f"))
                  true None (Some "tutorialSidebar");
                mkRoute "/docs/researcher-guide/best-practices"
                  (ComponentCreator "/docs/researcher-guide/best-practices" (Some "316"))
                  true None (Some "tutorialSidebar");
                mkRoute "/docs/researcher-guide/overview"
                  (ComponentCreator "/docs/researcher-guide/overview" (Some "957"))
                  true None (Some "tutorialSidebar");
                mkRoute "/docs/researcher-guide/setup"
                  (ComponentCreator "/docs/researcher-guide/setup" (Some "70f"))
                  true None (Some "tutorialSidebar");
                mkRoute "/docs/researcher-guide/tracking-experiments"
                  (ComponentCreator "/docs/researcher-guide/tracking-experiments" (Some "557"))
                  true None (Some "tutorialSidebar");
                mkRoute "/docs/researcher-guide/training"
                  (ComponentCreator "/docs/researcher-guide/training" (Some "3f2"))
                  true None (Some "tutorialSidebar");
                mkRoute "/docs/tools/databases"
                  (ComponentCreator "/docs/tools/databases" (Some "2d0"))
                  true None (Some "tutorialSidebar");
                mkRoute "/docs/tools/docker"
                  (ComponentCreator "/docs/tools/docker" (Some "83a"))
                  true None (Some "tutorialSidebar");
                mkRoute "/docs/tools/kubernetes"
                  (ComponentCreator "/docs/tools/kubernetes" (Some "6b6"))
                  true None (Some "tutorialSidebar");
                mkRoute "/docs/tools/message-queues"
                  (ComponentCreator "/docs/tools/message-queues" (Some "89a"))
                  true None (Some "tutorialSidebar");
                mkRoute "/docs/tools/minio"
                  (ComponentCreator "/docs/tools/minio" (Some "1d1"))
                  true None (Some "tutorialSidebar");
                mkRoute "/docs/tools/mlflow"
                  (ComponentCreator "/docs/tools/mlflow" (Some "a7c"))
                  true None (Some "tutorialSidebar");
                mkRoute "/docs/tools/overview"
                  (ComponentCreator "/docs/tools/overview" (Some "efb"))
                  true None (Some "tutorialSidebar");
                mkRoute "/docs/tools/postgres"
                  (ComponentCreator "/docs/tools/postgres" (Some "f58"))
                  true None (Some "tutorialSidebar")
              ]) None
          ]) None
      ]) None;
    mkRoute "/"
      (ComponentCreator "/" (Some "2e1"))
      true None None;
    mkRoute "*"
      (ComponentCreator "*" None)
      false None None
  ].

Definition committed_route_tables : list (list Route) :=
  [routes_part_000_first; routes_part_000_second; routes_part_001].

(** ** The committed sidebars *)

(** [src/sidebars.js], lines 15-24. *)
Definition tutorialSidebar_sidebars_js : list SidebarItem :=
  [
    Doc "getting-started/overview";
    Doc "getting-started/quick-start";
    Doc "repositories/overview";
    Doc "repositories/mlops-platform";
    Doc "tools/overview";
    Doc "tools/mlflow"
  ].

(** [src/unnamed/part_015], second document (lines 430-504). *)
Definition tutorialSidebar_part_015 : list SidebarItem :=
  [
    Doc "getting-started/overview";
    Doc "getting-started/quick-start";
    Doc "repositories/overview";
    Doc "repositories/mlops-platform";
    Category "Researcher Guide" false [
        Doc "researcher-guide/overview";
        Doc "researcher-guide/setup";
        Doc "researcher-guide/training";
        Doc "researcher-guide/tracking-experiments";
        Doc "researcher-guide/best-practices"
      ];
    Category "Development" false [
        Doc "development/mlops-workflow";
        Doc "development/local-setup";
        Doc "development/contributing"
      ];
    Category "Tools & Infrastructure" false [
        Doc "tools/overview";
        Category "Machine Learning Tools" true [
            Doc "tools/mlflow"
          ];
        Category "Infrastructure & Orchestration" true [
            Doc "tools/docker";
            Doc "tools/kubernetes"
          ];
        Category "Data Management" true [
            Doc "tools/minio";
            Doc "tools/postgres";
            Doc "tools/databases"
          ];
        Category "Message Queues & Event Streaming" true [
            Doc "tools/message-queues"
          ]
      ]
  ].

(** [src/unnamed/part_016], first document (lines 15-156). *)
Definition tutorialSidebar_part_016 : list SidebarItem :=
  [
    Doc "getting-started/overview";
    Doc "getting-started/quick-start";
    Doc "repositories/overview";
    Doc "repositories/mlops-platform";
    Category "Researcher Guide" false [
        Doc "researcher-guide/overview";
        Doc "researcher-guide/setup";
        Doc "researcher-guide/training";
        Doc "researcher-guide/tracking-experiments";
        Doc "researcher-guide/best-practices"
      ];
    Category "Development" false [
        Doc "development/mlops-workflow";
        Doc "development/local-setup";
        Doc "development/contributing"
      ];
    Category "Tools & Infrastructure" false [
        Doc "tools/overview";
        Category "Machine Learning Tools" true [
            Doc "tools/mlflow"
          ];
        Category "Infrastructure & Orchestration" true [
            Doc "tools/docker";
            Doc "tools/kubernetes";
            Doc "tools/helm";
            Doc "tools/argocd"
          ];
        Category "GPU Scheduling" true [
            Doc "tools/gpu-scheduling"
          ];
        Category "Object Storage" true [
            Doc "tools/minio"
          ];
        Category "Databases" true [
            Doc "tools/db-overview";
            Category "SQL Databases" true [
                Doc "tools/postgres";
                Doc "tools/mysql"
              ];
            Category "NoSQL Databases" true [
                Doc "tools/mongodb";
                Doc "tools/cassandra";
                Doc "tools/dynamodb"
              ];
            Category "Caching Layer" true [
                Doc "tools/redis";
                Doc "tools/memcached"
              ];
            Category "Time-Series Databases" true [
                Doc "tools/influxdb";
                Doc "tools/prometheus"
              ]
          ];
        Category "Message Queues & Event Streaming" true [
            Doc "tools/message-queues"
          ];
        Category "Monitoring & Observability" true [
            Doc "tools/monitoring"
          ];
        Category "CI/CD Pipelines" true [
            Doc "tools/cicd"
          ]
      ]
  ].

(** The three sidebars are three generations of one file; each route table
    was generated while one of them was in force (the [sidebar] fields of
    the table follow it). *)
Definition committed_generations : list (list SidebarItem * list Route) :=
  [ (tutorialSidebar_sidebars_js, routes_part_000_second);
    (tutorialSidebar_part_015, routes_part_001);
    (tutorialSidebar_part_016, routes_part_000_first) ].

(** ** Traversals *)

(** An entry together with every entry nested below it, parents first. *)
Fixpoint entries_of (r : Route) : list Route :=
  r :: match routes r with
       | Some cs => cs ≫= entries_of
       | None => []
       end.

Definition all_entries (rs : list Route) : list Route := rs ≫= entries_of.

(** The sibling lists below an entry: its own [routes] array and those of
    its descendants. *)
Fixpoint route_levels (r : Route) : list (list Route) :=
  match routes r with
  | Some cs => cs :: (cs ≫= route_levels)
  | None => []
  end.


(** The document ids of a sidebar item, in display order. *)
Fixpoint leaf_ids (it : SidebarItem) : list string :=
  match it with
  | Doc id => [id]
  | Category _ _ its => its ≫= leaf_ids
  end.

Definition sidebar_ids (tree : list SidebarItem) : list string :=
  tree ≫= leaf_ids.

(** ** Invariants of a route table *)

Definition root_path : string := "/".
Definition fallback_path : string := "*".




(** [exact: true] entries have no [routes]; entries with [routes] are not
    [exact]. *)
Definition exact_entries_are_leaves (rs : list Route) : Prop :=
  (∀ r, r ∈ all_entries rs → exact r = true → routes r = None) ∧
  (∀ r cs, r ∈ all_entries rs → routes r = Some cs → exact r = false).

(** A [sidebar] field occurs only on [exact: true] entries without
    [routes]; no entry with [routes] has one. *)
Definition sidebar_only_on_leaves (rs : list Route) : Prop :=
  (∀ r, r ∈ all_entries rs → is_Some (sidebar r) →
        exact r = true ∧ routes r = None) ∧
  (∀ r cs, r ∈ all_entries rs → routes r = Some cs → sidebar r = None).

(** The path of a nested entry starts with the path of its parent. *)
Definition children_extend_parent (rs : list Route) : Prop :=
  ∀ r cs c, r ∈ all_entries rs → routes r = Some cs → c ∈ cs →
            String.prefix (path r) (path c) = true.



Definition exact_leafb (r : Route) : bool :=
  match routes r with
  | Some _ => negb (exact r)
  | None => true
  end.

Definition sidebar_leafb (r : Route) : bool :=
  match sidebar r, routes r with
  | Some _, Some _ => false
  | Some _, None => exact r
  | None, _ => true
  end.

Definition children_extendb (r : Route) : bool :=
  match routes r with
  | Some cs => forallb (λ c, String.prefix (path r) (path c)) cs
  | None => true
  end.

(** ** Sidebar references and content pages *)

(** The docs plugin serves a document with id [id] under its route base
    path; [docusaurus.config.js] leaves the base path at its default. *)
Definition routeBasePath : string := "/docs".

Definition doc_route_path (id : string) : string :=
  routeBasePath +:+ "/" +:+ id.

(** The content pages of a table: the paths of its [exact: true] entries
    without [routes]. *)
Definition content_pages (rs : list Route) : list string :=
  path <$> filter (λ r, exact r = true ∧ routes r = None) (all_entries rs).

(** Every document id of the sidebar is served by a content page. *)
Definition sidebar_resolves (tree : list SidebarItem) (rs : list Route) : Prop :=
  ∀ id, id ∈ sidebar_ids tree → doc_route_path id ∈ content_pages rs.

Definition sidebar_resolvesb (tree : list SidebarItem) (rs : list Route) : bool :=
  forallb (λ id, bool_decide (doc_route_path id ∈ content_pages rs))
          (sidebar_ids tree).

(** The document ids a table serves: the content pages below the route
    base path, without the base path. *)
Definition strip_prefix (p s : string) : option string :=
  if String.prefix p s
  then Some (String.substring (String.length p)
                              (String.length s - String.length p) s)
  else None.

Definition page_ids (rs : list Route) : gset string :=
  list_to_set (omap (strip_prefix (routeBasePath +:+ "/")) (content_pages rs)).

(** ** The Dockerfile *)

(** The instructions [src/Dockerfile] (lines 1-44) uses.  [RUN] and the
    [HEALTHCHECK] command are in shell form (one string), [CMD] is in exec
    form (a JSON array).  An instruction written over several lines is
    joined at its continuation marks, the blanks around them kept.  Ports
    are kept as written. *)
Inductive Instruction : Type :=
  | FROM (image : string) (alias : option string)
  | WORKDIR (dir : string)
  | COPY (from : option string) (sources : list string) (dest : string)
  | RUN (command : string)
  | USER (user : string)
  | EXPOSE (port : string)
  | HEALTHCHECK (options : list (string * string)) (command : string)
  | CMD (argv : list string).

#[global] Instance Instruction_eq_dec : EqDecision Instruction.
Proof. solve_decision. Defined.

Definition Dockerfile : list Instruction :=
  [ FROM "node:22-alpine" (Some "builder");
    WORKDIR "/app";
    COPY None ["package*.json"] "./";
    RUN "npm ci";
    COPY None ["."] ".";
    RUN "npm run build";
    FROM "node:22-alpine" None;
    WORKDIR "/app";
    RUN "npm install -g http-server";
    COPY (Some "builder") ["/app/build"] "./build";
    RUN "addgroup -g 1001 -S nodejs &&     adduser -S nodejs -u 1001 &&     chown -R nodejs:nodejs /app";
    USER "nodejs";
    EXPOSE "3000";
    HEALTHCHECK [("interval", "30s"); ("timeout", "10s");
                 ("start-period", "40s"); ("retries", "3")]
                "wget --quiet --tries=1 --spider http://localhost:3000/ || exit 1";
    CMD ["http-server"; "build"; "-p"; "3000"; "--cors"; "-c-1"] ].

(** A Dockerfile is a sequence of stages, each opened by [FROM]. *)
Definition add_instruction (acc : list (list Instruction)) (i : Instruction)
  : list (list Instruction) :=
  match i, acc with
  | FROM _ _, _ => [i] :: acc
  | _, s :: acc' => (s ++ [i]) :: acc'
  | _, [] => [[i]]
  end.

Definition stages (df : list Instruction) : list (list Instruction) :=
  reverse (foldl add_instruction [] df).

(** The image is the last stage; within a stage the last [CMD], the last
    [HEALTHCHECK] and the last [WORKDIR] are the ones in force. *)
Definition final_stage (df : list Instruction) : list Instruction :=
  default [] (last (stages df)).

Definition effective_cmd (stage : list Instruction) : option (list string) :=
  last (omap (λ i, match i with CMD argv => Some argv | _ => None end) stage).

Definition effective_healthcheck (stage : list Instruction) : option string :=
  last (omap (λ i, match i with HEALTHCHECK _ c => Some c | _ => None end) stage).

Definition workdir (stage : list Instruction) : option string :=
  last (omap (λ i, match i with WORKDIR d => Some d | _ => None end) stage).

Definition exposed (stage : list Instruction) : list string :=
  omap (λ i, match i with EXPOSE p => Some p | _ => None end) stage.

(** Command lines.  [http-server [path] [options]]: the directory is the
    first argument after the program name, the port is the value that
    follows [-p]. *)
Fixpoint option_value (flag : string) (argv : list string) : option string :=
  match argv with
  | a :: ((v :: _) as rest) =>
      if bool_decide (a = flag) then Some v else option_value flag rest
  | _ => None
  end.


(** Shell words: a command string cut at blanks. *)
Fixpoint words_aux (cur : string) (s : string) : list string :=
  match s with
  | EmptyString => if bool_decide (cur = "") then [] else [cur]
  | String c s' =>
      if bool_decide (c = " "%char)
      then (if bool_decide (cur = "") then [] else [cur]) ++ words_aux "" s'
      else words_aux (cur +:+ String c EmptyString) s'
  end.

Definition words (s : string) : list string := words_aux "" s.

(** [break c s]: the part of [s] before the first [c], and the part after
    it when there is one. *)
Fixpoint break (c : ascii) (s : string) : string * option string :=
  match s with
  | EmptyString => (EmptyString, None)
  | String a s' =>
      if bool_decide (a = c) then (EmptyString, Some s')
      else let '(before, after) := break c s' in (String a before, after)
  end.

(** [http://host[:port][/path]] as (host, port, path); the port defaults
    to 80 and the path to [/]. *)
Definition parse_http_url (u : string) : option (string * string * string) :=
  rest ← strip_prefix "http://" u;
  let '(authority, tail) := break "/"%char rest in
  let '(host, port) := break ":"%char authority in
  Some (host, default "80" port, "/" +:+ default "" tail).

(** The URL the health check probes: the first word of the command that is
    an http URL. *)
Definition health_probe (command : string) : option string :=
  head (filter (λ w, String.prefix "http://" w = true) (words command)).

(** ** Further readings of the committed artefacts *)

(** The paths of the entries that carry a [sidebar] field. *)
Definition sidebar_flagged (rs : list Route) : list string :=
  path <$> filter (λ r, is_Some (sidebar r)) (all_entries rs).


(** The first argument of [ComponentCreator] is the path of the entry. *)
Definition component_matches_path (r : Route) : Prop :=
  match component r with
  | ComponentCreator p _ => p = path r
  end.

#[global] Instance component_matches_path_dec r :
  Decision (component_matches_path r).
Proof. unfold component_matches_path. destruct (component r); apply _. Defined.

(** The user the container runs as: the last [USER] of the stage. *)
Definition effective_user (stage : list Instruction) : option string :=
  last (omap (λ i, match i with USER u => Some u | _ => None end) stage).

(** The shell commands a stage runs. *)
Definition run_commands (stage : list Instruction) : list string :=
  omap (λ i, match i with RUN c => Some c | _ => None end) stage.

(** Paths in strictly ascending order of their characters. *)
Fixpoint ascending (l : list string) : bool :=
  match l with
  | a :: ((b :: _) as rest) => String.ltb a b && ascending rest
  | _ => true
  end.

(** The nested sibling lists of a table, the top level left out. *)
Definition nested_levels (rs : list Route) : list (list Route) :=
  rs ≫= route_levels.

(** ** The site configuration and the home page *)

(** An item of [themeConfig.navbar.items]: a link to a sidebar
    ([{type: 'docSidebar', sidebarId, position, label}]) or an external
    link ([{href, label, position}]). *)
Inductive NavbarItem : Type :=
  | DocSidebarItem (sidebarId position label : string)
  | HrefItem (href label position : string).

(** An item of a footer column: [{label, to}] or [{label, href}]. *)
Inductive FooterItem : Type :=
  | FooterTo (label to : string)
  | FooterHref (label href : string).

Record FooterColumn : Type :=
  mkFooterColumn {
    column_title : string;
    column_items : list FooterItem
  }.

(** The object [config] of [docusaurus.config.js].  Nested objects are
    flattened: a field [a_b] is the field [b] of the object [a].  The
    imported prism themes are kept by name.  The copyright line is a
    template over [new Date().getFullYear()], a function of the year. *)
Record Config : Type :=
  mkConfig {
    title : string;
    tagline : string;
    favicon : string;
    url : string;
    baseUrl : string;
    organizationName : string;
    projectName : string;
    onBrokenLinks : string;
    onBrokenMarkdownLinks : string;
    i18n_defaultLocale : string;
    i18n_locales : list string;
    docs_sidebarPath : string;
    docs_editUrl : string;
    blog_showReadingTime : bool;
    blog_editUrl : string;
    theme_customCss : string;
    themeConfig_image : string;
    navbar_title : string;
    navbar_logo_alt : string;
    navbar_logo_src : string;
    navbar_items : list NavbarItem;
    footer_style : string;
    footer_links : list FooterColumn;
    footer_copyright : string → string;
    prism_theme : string;
    prism_darkTheme : string;
    prism_additionalLanguages : list string
  }.

(** [src/unnamed/part_002], lines 10-136. *)
Definition config : Config :=
  {| title := "MLOps Platform";
     tagline := "Enterprise MLOps Infrastructure & Research Platform";
     favicon := "img/favicon.ico";
     url := "https://mlops-platform.example.com";
     baseUrl := "/";
     organizationName := "MLops-Project-Platform";
     projectName := "documentation";
     onBrokenLinks := "throw";
     onBrokenMarkdownLinks := "warn";
     i18n_defaultLocale := "en";
     i18n_locales := ["en"];
     docs_sidebarPath := "./sidebars.js";
     docs_editUrl :=
       "https://github.com/MLops-Project-Platform/documentation/tree/main/";
     blog_showReadingTime := true;
     blog_editUrl :=
       "https://github.com/MLops-Project-Platform/documentation/tree/main/";
     theme_customCss := "./src/css/custom.css";
     themeConfig_image := "img/mlops-social-card.jpg";
     navbar_title := "MLOps Platform Documentation";
     navbar_logo_alt := "MLOps Logo";
     navbar_logo_src := "img/twiml-mlops.png";
     navbar_items :=
       [ DocSidebarItem "tutorialSidebar" "left" "Documentation";
         HrefItem "https://github.com/MLops-Project-Platform" "GitHub" "right" ];
     footer_style := "dark";
     footer_links :=
       [ mkFooterColumn "Docs"
           [ FooterTo "Getting Started" "/docs/getting-started/overview";
             FooterTo "Architecture" "/docs/architecture/overview";
             FooterTo "Deployment" "/docs/deployment/docker" ];
         mkFooterColumn "Repositories"
           [ FooterHref "MLOps Platform"
               "https://github.com/MLops-Project-Platform/mlops-platform";
             FooterHref "Helm Charts"
               "https://github.com/MLops-Project-Platform/mlops-helm-charts";
             FooterHref "Research Template"
               "https://github.com/MLops-Project-Platform/mlops-research-template" ];
         mkFooterColumn "Community"
           [ FooterHref "GitHub Issues"
               "https://github.com/MLops-Project-Platform/issues";
             FooterHref "Discussions"
               "https://github.com/MLops-Project-Platform/discussions" ] ];
     footer_copyright := λ year,
       "Copyright © " +:+ year +:+ " MLOps Platform. Built with Docusaurus.";
     prism_theme := "prismThemes.github";
     prism_darkTheme := "prismThemes.dracula";
     prism_additionalLanguages := ["bash"; "yaml"; "docker"; "python"; "json"]
  |}.

(** The internal targets of the footer: the [to] fields of its items. *)
Definition footer_targets (c : Config) : list string :=
  footer_links c ≫= λ col,
    omap (λ i, match i with FooterTo _ t => Some t | FooterHref _ _ => None end)
         (column_items col).

(** The sidebars a navbar item of type [docSidebar] names. *)
Definition navbar_sidebar_ids (c : Config) : list string :=
  omap (λ i, match i with
             | DocSidebarItem sid _ _ => Some sid
             | HrefItem _ _ _ => None
             end) (navbar_items c).

(** The home page ([src/unnamed/part_016], second document): on mount it
    sets [window.location.href] (line 165), and it renders a [Link] to
    follow by hand (line 175). *)
Definition home_redirect : string := "/docs/getting-started/overview".

Definition home_link : string := "/docs/getting-started/overview".

(** The objects [sidebars] of the three sidebar files, by key. *)
Definition sidebars_js : list (string * list SidebarItem) :=
  [ ("tutorialSidebar", tutorialSidebar_sidebars_js) ].

Definition sidebars_part_015 : list (string * list SidebarItem) :=
  [ ("tutorialSidebar", tutorialSidebar_part_015) ].

Definition sidebars_part_016 : list (string * list SidebarItem) :=
  [ ("tutorialSidebar", tutorialSidebar_part_016) ].

Definition committed_sidebars : list (list (string * list SidebarItem)) :=
  [sidebars_js; sidebars_part_015; sidebars_part_016].

(** An entry names no sidebar, or one of [ids]. *)
Definition sidebar_among (ids : list string) (r : Route) : Prop :=
  match sidebar r with
  | Some s => s ∈ ids
  | None => True
  end.

#[global] Instance sidebar_among_dec ids r : Decision (sidebar_among ids r).
Proof. unfold sidebar_among. destruct (sidebar r); apply _. Defined.

(** The hash a component was created with. *)
Definition hash_of (r : Route) : option string :=
  match component r with
  | ComponentCreator _ h => h
  end.

(** The entries without nested routes of all committed tables. *)
Definition committed_leaves : list Route :=
  committed_route_tables ≫= λ rs, filter (λ r, routes r = None) (all_entries rs).

(** ** Paths and links *)

(** A string cut at every [c]; empty pieces are kept. *)
Fixpoint split_aux (c : ascii) (cur s : string) : list string :=
  match s with
  | EmptyString => [cur]
  | String a s' =>
      if bool_decide (a = c) then cur :: split_aux c "" s'
      else split_aux c (cur +:+ String a EmptyString) s'
  end.

Definition split_on (c : ascii) (s : string) : list string := split_aux c "" s.

(** Walking [segs] from the directory [stack] (innermost directory first):
    an empty segment and [.] stay, [..] goes up, a name goes down.  Going
    up from the root fails. *)
Fixpoint walk (stack segs : list string) : option (list string) :=
  match segs with
  | [] => Some (reverse stack)
  | s :: rest =>
      if bool_decide (s = "" ∨ s = ".") then walk stack rest
      else if bool_decide (s = "..") then
        match stack with
        | [] => None
        | _ :: up => walk up rest
        end
      else walk (s :: stack) rest
  end.

(** Segments written as an absolute path. *)
Definition absolute (segs : list string) : string :=
  match segs with
  | [] => "/"
  | _ => foldr (λ s acc, "/" +:+ s +:+ acc) "" segs
  end.


Definition strip_suffix (suf s : string) : option string :=
  let n := String.length s - String.length suf in
  if bool_decide (String.substring n (String.length suf) s = suf
                  ∧ String.length suf ≤ String.length s)
  then Some (String.substring 0 n s) else None.

(** The page a Markdown link leads to.  A target that starts with [/] is
    a URL path of the site.  Any other target names a Markdown file
    relative to the directory [dir] of the linking document under
    [docs/]; the page of that file is its path under the route base path,
    without the extension. *)
Definition link_route (dir : list string) (target : string) : option string :=
  if String.prefix "/" target then Some target
  else
    segs ← walk (reverse dir) (split_on "/" target);
    file ← last segs;
    name ← strip_suffix ".md" file;
    Some (routeBasePath +:+ absolute (removelast segs ++ [name])).

Definition link_resolves (rs : list Route) (dir : list string) (target : string)
  : Prop :=
  match link_route dir target with
  | Some p => p ∈ content_pages rs
  | None => False
  end.

#[global] Instance link_resolves_dec rs dir target :
  Decision (link_resolves rs dir target).
Proof. unfold link_resolves. destruct (link_route dir target); apply _. Defined.

(** The directories of the docs tree a table serves pages from. *)
Definition docs_directories (rs : list Route) : list string :=
  remove_dups
    (omap (λ p, match split_on "/" p with
                | [ _; base; dir; _ ] =>
                    if bool_decide ("/" +:+ base = routeBasePath)
                    then Some dir else None
                | _ => None
                end) (content_pages rs)).

(** ** The content documents *)

(** A Markdown document of the site.  A file of the sources may hold more
    than one document; the file name locates the first one only.  [md_id]
    is the path of the document under [docs/] without the extension, when
    it is known; [md_links] are the targets of its Markdown links that
    carry no URL scheme, in the order of the text. *)
Record MarkdownDoc : Type :=
  mkMarkdownDoc {
    md_file : string;
    md_line : nat;
    md_id : option string;
    md_links : list string
  }.

(** The directory of a document, from its id. *)
Definition md_dir (id : string) : list string :=
  removelast (split_on "/" id).

Definition content_documents : list MarkdownDoc :=
  [
    mkMarkdownDoc "src/docs/architecture/components.md" 1 (Some "architecture/components")
      ["./data-flow.md"];
    mkMarkdownDoc "src/docs/architecture/data-flow.md" 1 (Some "architecture/data-flow")
      ["./components.md"];
    mkMarkdownDoc "src/docs/architecture/overview.md" 1 (Some "architecture/overview")
      ["./components.md"];
    mkMarkdownDoc "src/docs/deployment/docker.md" 1 (Some "deployment/docker")
      ["./kubernetes.md"];
    mkMarkdownDoc "src/docs/deployment/production-setup.md" 1 (Some "deployment/production-setup")
      ["../tools/docker.md"; "../tools/kubernetes.md"];
    mkMarkdownDoc "src/docs/repositories/mlops-research-template.md" 1 (Some "repositories/mlops-research-template")
      ["../researcher-guide/overview.md"];
    mkMarkdownDoc "src/docs/repositories/mlops-research-template.md" 435 None
      ["../deployment/kubernetes.md"];
    mkMarkdownDoc "src/docs/repositories/overview.md" 1 (Some "repositories/overview")
      ["./mlops-platform.md"; "./mlops-research-template.md";
       "./mlops-helm-charts.md"];
    mkMarkdownDoc "src/docs/repositories/overview.md" 85 None
      ["./best-practices.md"];
    mkMarkdownDoc "src/docs/researcher-guide/training.md" 1 (Some "researcher-guide/training")
      ["./tracking-experiments.md"];
    mkMarkdownDoc "src/docs/researcher-guide/training.md" 510 None
      ["./setup.md"; "./training.md"; "./tracking-experiments.md";
       "./best-practices.md"; "./setup.md"; "./training.md";
       "./tracking-experiments.md"; "./best-practices.md"];
    mkMarkdownDoc "src/docs/researcher-guide/training.md" 685 None
      ["./training.md"; "./tracking-experiments.md"; "./best-practices.md";
       "../getting-started/overview.md"];
    mkMarkdownDoc "src/docs/researcher-guide/training.md" 1099 None
      [];
    mkMarkdownDoc "src/docs/tools/argocd.md" 1 (Some "tools/argocd")
      [];
    mkMarkdownDoc "src/docs/tools/databases.md" 1 (Some "tools/databases")
      [];
    mkMarkdownDoc "src/docs/tools/db-overview.md" 1 (Some "tools/db-overview")
      ["/docs/tools/postgres"; "/docs/tools/mysql"; "/docs/tools/mongodb";
       "/docs/tools/redis"; "/docs/tools/cassandra"; "/docs/tools/dynamodb";
       "/docs/tools/influxdb"; "/docs/tools/prometheus"; "./influxdb.md";
       "./prometheus.md"];
    mkMarkdownDoc "src/docs/tools/gpu-scheduling.md" 1 (Some "tools/gpu-scheduling")
      [];
    mkMarkdownDoc "src/docs/tools/gpu-scheduling.md" 385 None
      ["../researcher-guide/training.md"];
    mkMarkdownDoc "src/docs/tools/kubernetes.md" 1 (Some "tools/kubernetes")
      ["../repositories/mlops-helm-charts.md"; "../deployment/kubernetes.md"];
    mkMarkdownDoc "src/docs/tools/message-queues.md" 1 (Some "tools/message-queues")
      ["./databases.md"];
    mkMarkdownDoc "src/docs/tools/message-queues.md" 627 None
      [];
    mkMarkdownDoc "src/docs/tools/minio.md" 1 (Some "tools/minio")
      ["../researcher-guide/training.md"];
    mkMarkdownDoc "src/docs/tools/mongodb.md" 1 (Some "tools/mongodb")
      [];
    mkMarkdownDoc "src/docs/tools/mysql.md" 1 (Some "tools/mysql")
      [];
    mkMarkdownDoc "src/docs/tools/overview.md" 1 (Some "tools/overview")
      ["./mlflow.md"; "./postgres.md"; "./minio.md"; "./docker.md";
       "./kubernetes.md"];
    mkMarkdownDoc "src/docs/tools/postgres.md" 1 (Some "tools/postgres")
      ["../architecture/overview.md"];
    mkMarkdownDoc "src/docs/tools/postgres.md" 259 None
      [];
    mkMarkdownDoc "src/docs/tools/prometheus.md" 1 (Some "tools/prometheus")
      [];
    mkMarkdownDoc "src/docs/tools/prometheus.md" 510 None
      [];
    mkMarkdownDoc "src/docs/tools/redis.md" 1 (Some "tools/redis")
      [];
    mkMarkdownDoc "src/unnamed/part_003" 1 None
      [];
    mkMarkdownDoc "src/unnamed/part_003" 320 None
      [];
    mkMarkdownDoc "src/unnamed/part_004" 1 None
      [];
    mkMarkdownDoc "src/unnamed/part_005" 1 None
      ["./mlflow.md"; "./docker.md"; "./kubernetes.md"; "./minio.md";
       "./databases.md"; "./message-queues.md"; "./mlflow.md";
       "./postgres.md"; "./docker.md"; "./kubernetes.md"; "./minio.md";
       "./databases.md"; "./message-queues.md"];
    mkMarkdownDoc "src/unnamed/part_005" 458 None
      ["../researcher-guide/overview.md"];
    mkMarkdownDoc "src/unnamed/part_006" 1 None
      [];
    mkMarkdownDoc "src/unnamed/part_007" 1 None
      ["./production-setup.md"];
    mkMarkdownDoc "src/unnamed/part_008" 1 None
      ["./mlops-helm-charts.md"; "../getting-started/quick-start.md"];
    mkMarkdownDoc "src/unnamed/part_009" 1 None
      ["./quick-start.md"; "../architecture/overview.md";
       "../repositories/overview.md"; "../tools/overview.md";
       "../researcher-guide/overview.md"; "../researcher-guide/overview.md";
       "../deployment/docker.md"; "../development/contributing.md";
       "./quick-start.md"];
    mkMarkdownDoc "src/unnamed/part_010" 1 None
      ["../tools/overview.md"; "../researcher-guide/overview.md";
       "../deployment/kubernetes.md"; "../architecture/overview.md";
       "../repositories/overview.md"];
    mkMarkdownDoc "src/unnamed/part_011" 1 None
      [];
    mkMarkdownDoc "src/unnamed/part_011" 496 None
      [];
    mkMarkdownDoc "src/unnamed/part_012" 1 None
      ["/docs/tools/mlflow"; "/docs/researcher-guide/overview";
       "/docs/development/contributing"]
  ].

(** Every link of a located document resolves from its own directory. *)
Definition located_links_resolve (rs : list Route) (d : MarkdownDoc) : Prop :=
  match md_id d with
  | Some id => Forall (link_resolves rs (md_dir id)) (md_links d)
  | None => True
  end.

#[global] Instance located_links_resolve_dec rs d :
  Decision (located_links_resolve rs d).
Proof. unfold located_links_resolve. destruct (md_id d); apply _. Defined.

(** There is a directory of the docs tree from which every link of a
    document of unknown name resolves. *)
Definition unlocated_links_resolve (rs : list Route) (d : MarkdownDoc) : Prop :=
  match md_id d with
  | Some _ => True
  | None =>
      Exists (λ dir, Forall (link_resolves rs [dir]) (md_links d))
             (docs_directories rs)
  end.

#[global] Instance unlocated_links_resolve_dec rs d :
  Decision (unlocated_links_resolve rs d).
Proof. unfold unlocated_links_resolve. destruct (md_id d); apply _. Defined.

(** A located document has a content page. *)
Definition document_routed (rs : list Route) (d : MarkdownDoc) : Prop :=
  match md_id d with
  | Some id => doc_route_path id ∈ content_pages rs
  | None => True
  end.

#[global] Instance document_routed_dec rs d : Decision (document_routed rs d).
Proof. unfold document_routed. destruct (md_id d); apply _. Defined.

(** The [COPY] instructions of a stage. *)
Definition copies (stage : list Instruction)
  : list (option string * list string * string) :=
  omap (λ i, match i with
             | COPY from srcs dest => Some (from, srcs, dest)
             | _ => None
             end) stage.

(** ** The deployment of the site as its documents describe it *)

(** The Dockerfile of the deployment guide
    ([src/docs/deployment/docker.md], lines 17-53), which the guide says
    to save as [Dockerfile]. *)
Definition guide_Dockerfile : list Instruction :=
  [ FROM "node:18-alpine" (Some "builder");
    WORKDIR "/app";
    COPY None ["package*.json"] "./";
    RUN "npm ci";
    COPY None ["."] ".";
    RUN "npm run build";
    FROM "node:18-alpine" None;
    WORKDIR "/app";
    COPY (Some "builder") ["/app/build"] "./build";
    RUN "npm install -g http-server";
    EXPOSE "3000";
    HEALTHCHECK [("interval", "30s"); ("timeout", "10s");
                 ("start-period", "40s"); ("retries", "3")]
                "wget --quiet --tries=1 --spider http://localhost:3000/ || exit 1";
    CMD ["http-server"; "build"; "-p"; "3000"; "--cors"; "-c-1"] ].

(** The [HEALTHCHECK] instructions of a stage, options and command. *)
Definition healthchecks (stage : list Instruction)
  : list (list (string * string) * string) :=
  omap (λ i, match i with HEALTHCHECK o c => Some (o, c) | _ => None end) stage.

(** The port the server of a stage listens on: the value of [-p] in its
    command line. *)
Definition server_port (stage : list Instruction) : option string :=
  argv ← effective_cmd stage; option_value "-p" argv.

(** The path the health check of a stage probes. *)
Definition health_path (stage : list Instruction) : option string :=
  command ← effective_healthcheck stage;
  probe ← health_probe command;
  '(_, _, p) ← parse_http_url probe;
  Some p.

(** The commands of a [RUN] line: its words, cut at [&&]. *)
Fixpoint chain_aux (cur ws : list string) : list (list string) :=
  match ws with
  | [] => [reverse cur]
  | w :: rest =>
      if bool_decide (w = "&&") then reverse cur :: chain_aux [] rest
      else chain_aux (w :: cur) rest
  end.

Definition shell_chain (command : string) : list (list string) :=
  chain_aux [] (words command).

(** The first command of a stage that runs program [prog]. *)
Definition invocation_of (prog : string) (stage : list Instruction)
  : option (list string) :=
  head (filter (λ ws, head ws = Some prog) (run_commands stage ≫= shell_chain)).

(** The operands of a command: its words after the program name, without
    the options and without the values of the options listed in
    [valued]. *)
Fixpoint operands_aux (valued : list string) (skip : bool) (ws : list string)
  : list string :=
  match ws with
  | [] => []
  | w :: rest =>
      if skip then operands_aux valued false rest
      else if bool_decide (w ∈ valued) then operands_aux valued true rest
      else if String.prefix "-" w then operands_aux valued false rest
      else w :: operands_aux valued false rest
  end.

Definition operands (valued : list string) (ws : list string) : list string :=
  operands_aux valued false (tail ws).

(** The base image is Alpine, whose [adduser] is the one of BusyBox:
    [adduser [OPTIONS] USER [GROUP]], where [-h], [-g], [-s], [-G], [-u]
    and [-k] take a value. *)
Definition adduser_valued : list string := ["-h"; "-g"; "-s"; "-G"; "-u"; "-k"].

(** The user the stage creates: the first operand of its [adduser]. *)
Definition created_user (stage : list Instruction) : option string :=
  ws ← invocation_of "adduser" stage; head (operands adduser_valued ws).

(** The user id and group id the stage creates. *)
Definition created_uid (stage : list Instruction) : option string :=
  ws ← invocation_of "adduser" stage; option_value "-u" ws.

Definition created_gid (stage : list Instruction) : option string :=
  ws ← invocation_of "addgroup" stage; option_value "-g" ws.

(** [host:container], the value of a published port. *)
Definition port_mapping (m : string) : option (string * string) :=
  match break ":"%char m with
  | (host, Some container) => Some (host, container)
  | (_, None) => None
  end.

(** The [docker run] commands of the sources that run the image built
    from the Dockerfile ([mlops-docs:1.0]), with file and first line.  A
    command written over several lines is joined at its continuation
    marks, the blanks around them kept. *)
Definition documented_docker_runs : list (string * nat * string) :=
  [ ("src/QUICK_REFERENCE.md", 24, "docker run -d -p 3000:3000 mlops-docs:1.0");
    ("src/QUICK_REFERENCE.md", 61, "docker run -d -p 3000:3000 mlops-docs:1.0");
    ("src/QUICK_REFERENCE.md", 204, "docker run -p 3000:3000 mlops-docs:1.0");
    ("src/unnamed/part_013", 106, "docker run -d -p 3000:3000 mlops-docs:1.0");
    ("src/unnamed/part_014", 45, "docker run -d -p 3000:3000 mlops-docs:1.0");
    ("src/unnamed/part_014", 146, "docker run -p 3000:3000 mlops-docs:1.0");
    ("src/docs/deployment/docker.md", 97,
     "docker run -d   --name mlops-docs   -p 3000:3000   mlops-docs:1.0");
    ("src/docs/deployment/docker.md", 191,
     "docker run -d   --name mlops-docs-dev   -p 3000:3000   -v $(pwd)/docs:/app/docs   -v $(pwd)/sidebars.js:/app/sidebars.js   mlops-docs:1.0");
    ("src/docs/deployment/docker.md", 370,
     "docker run -p 3001:3000 mlops-docs:1.0");
    ("src/docs/deployment/docker.md", 381, "docker run -m 1g mlops-docs:1.0") ].

(** The [ports] entries of the compose files of the deployment guide. *)
Definition documented_compose_ports : list (string * nat * string) :=
  [ ("src/docs/deployment/docker.md", 149, "3000:3000");
    ("src/docs/deployment/docker.md", 327, "3000:3000");
    ("src/docs/deployment/docker.md", 338, "3000:3000") ].

(** The [healthcheck.test] entries of the compose files. *)
Definition documented_compose_healthchecks : list (string * nat * list string) :=
  [ ("src/docs/deployment/docker.md", 160,
     ["CMD"; "wget"; "--quiet"; "--tries=1"; "--spider"; "http://localhost:3000/"]);
    ("src/docs/deployment/docker.md", 341,
     ["CMD"; "wget"; "--quiet"; "--tries=1"; "--spider"; "http://localhost:3000/"]) ].

(** A published port leads to the port [port] of the container. *)
Definition publishes_to (port : option string) (command : string) : Prop :=
  match option_value "-p" (words command) with
  | Some m => snd <$> port_mapping m = port
  | None => True
  end.

#[global] Instance publishes_to_dec port command :
  Decision (publishes_to port command).
Proof.
  unfold publishes_to. destruct (option_value "-p" (words command)); apply _.
Defined.

(** The Kubernetes manifests of the deployment guide
    ([src/unnamed/part_007]): the pod template of [k8s/deployment.yaml]
    (lines 58-118) and the ports of [k8s/service.yaml] (lines 141-145).
    Numbers are kept as written. *)
Record ContainerPort : Type :=
  mkContainerPort {
    port_name : string;
    containerPort : string;
    port_protocol : string
  }.

Record HttpProbe : Type :=
  mkHttpProbe {
    httpGet_path : string;
    httpGet_port : string;
    initialDelaySeconds : nat;
    periodSeconds : nat;
    timeoutSeconds : nat;
    failureThreshold : nat
  }.

Record ContainerSecurityContext : Type :=
  mkContainerSecurityContext {
    runAsNonRoot : bool;
    runAsUser : string;
    allowPrivilegeEscalation : bool;
    capabilities_drop : list string
  }.

Record Container : Type :=
  mkContainer {
    container_name : string;
    container_image : string;
    imagePullPolicy : string;
    container_ports : list ContainerPort;
    container_env : list (string * string);
    resources_requests : list (string * string);
    resources_limits : list (string * string);
    livenessProbe : HttpProbe;
    readinessProbe : HttpProbe;
    container_securityContext : ContainerSecurityContext
  }.

Record PodTemplate : Type :=
  mkPodTemplate {
    pod_labels : list (string * string);
    pod_annotations : list (string * string);
    serviceAccountName : string;
    pod_fsGroup : string;
    containers : list Container
  }.

Record ServicePort : Type :=
  mkServicePort {
    service_port : string;
    targetPort : string;
    service_protocol : string;
    service_port_name : string
  }.

Definition deployment_template : PodTemplate :=
  {| pod_labels := [("app", "mlops-docs")];
     pod_annotations :=
       [("prometheus.io/scrape", "true"); ("prometheus.io/port", "3000")];
     serviceAccountName := "mlops-docs";
     pod_fsGroup := "1001";
     containers :=
       [ {| container_name := "docs";
            container_image := "your-registry/mlops-docs:1.0";
            imagePullPolicy := "IfNotPresent";
            container_ports := [mkContainerPort "http" "3000" "TCP"];
            container_env := [("NODE_ENV", "production")];
            resources_requests := [("memory", "128Mi"); ("cpu", "100m")];
            resources_limits := [("memory", "512Mi"); ("cpu", "500m")];
            livenessProbe := mkHttpProbe "/" "http" 30 10 5 3;
            readinessProbe := mkHttpProbe "/" "http" 10 5 3 2;
            container_securityContext :=
              mkContainerSecurityContext true "1001" false ["ALL"] |} ] |}.

Definition service_ports : list ServicePort :=
  [ mkServicePort "80" "http" "TCP" "http" ].

(** [kubectl port-forward svc/mlops-docs 3000:80 -n mlops-docs]
    ([src/unnamed/part_007], line 402; [src/QUICK_REFERENCE.md],
    line 91). *)
Definition documented_port_forward : string :=
  "kubectl port-forward svc/mlops-docs 3000:80 -n mlops-docs".

(** The container port a port name stands for. *)
Definition named_port (c : Container) (name : string) : option string :=
  containerPort <$> head (filter (λ p, port_name p = name) (container_ports c)).

(** The container agrees with an image that listens on [port], answers
    its health check on [path] and creates the user [uid]. *)
Definition container_matches (port path uid : option string) (c : Container)
  : Prop :=
  named_port c (httpGet_port (livenessProbe c)) = port ∧
  named_port c (httpGet_port (readinessProbe c)) = port ∧
  Some (httpGet_path (livenessProbe c)) = path ∧
  Some (httpGet_path (readinessProbe c)) = path ∧
  runAsNonRoot (container_securityContext c) = true ∧
  Some (runAsUser (container_securityContext c)) = uid.

#[global] Instance container_matches_dec port path uid c :
  Decision (container_matches port path uid c).
Proof. unfold container_matches. apply _. Defined.

(** * Operations modelled from the spec

    The repository commits the tables and the sidebars, not the code that
    produces and validates them: route generation and sidebar validation
    are done by the documentation framework.  The two operations are
    modelled here from their written contract. *)

(** ** The route builder *)

(** Modelled from the spec: a document, the input of the route builder,
    which is not in the repository.  A document has a unique logical path
    and an optional parent path. *)
Record Document : Type :=
  mkDocument {
    doc_path : string;
    doc_parent : option string
  }.

(** Modelled from the spec: the two fatal errors of the route builder,
    each carrying the offending path. *)
Inductive BuildError : Type :=
  | DuplicatePathError (p : string)
  | OrphanedChildError (p : string).

(** Modelled from the spec: the duplicate check of the route builder.  The
    first path of [ps] that is in [seen] or occurs earlier in [ps]. *)
Fixpoint first_duplicate (seen ps : list string) : option string :=
  match ps with
  | [] => None
  | p :: ps' =>
      if bool_decide (p ∈ seen) then Some p
      else first_duplicate (p :: seen) ps'
  end.

(** Modelled from the spec: the orphan check of the route builder.  A
    document is orphaned when it declares a parent path that no document
    of the sequence declares as its path. *)
Definition is_orphan (docs : list Document) (d : Document) : Prop :=
  match doc_parent d with
  | Some q => q ∉ doc_path <$> docs
  | None => False
  end.

#[global] Instance is_orphan_dec docs d : Decision (is_orphan docs d).
Proof. unfold is_orphan. destruct (doc_parent d); apply _. Defined.

(** Modelled from the spec: the path of the first orphaned document of the
    sequence. *)
Definition first_orphan (docs : list Document) : option string :=
  doc_path <$> head (filter (is_orphan docs) docs).

(** Modelled from the spec: the documents nested under path [p], in the
    order of the input sequence. *)
Definition children_of (docs : list Document) (p : string) : list Document :=
  filter (λ d, doc_parent d = Some p) docs.

(** Modelled from the spec: the documents without a parent, in the order
    of the input sequence. *)
Definition top_level (docs : list Document) : list Document :=
  filter (λ d, doc_parent d = None) docs.

(** Modelled from the spec: the component reference of a built entry.  It
    is opaque; the hash of the generated tables is not reproducible. *)
Definition componentRef (p : string) : Component := ComponentCreator p None.

(** Modelled from the spec: a built entry without children matches its
    path exactly. *)
Definition leaf_entry (p : string) : Route :=
  mkRoute p (componentRef p) true None None.

(** Modelled from the spec: a built entry with children is a prefix for
    its nested routes. *)
Definition prefix_entry (p : string) (cs : list Route) : Route :=
  mkRoute p (componentRef p) false (Some cs) None.

(** Modelled from the spec: the entry the route builder makes of a
    document, with the entries of its children nested under it in input
    order.  [fuel] bounds the nesting depth. *)
Fixpoint build_entry (fuel : nat) (docs : list Document) (d : Document)
  : Route :=
  match fuel with
  | 0 => leaf_entry (doc_path d)
  | S n =>
      match children_of docs (doc_path d) with
      | [] => leaf_entry (doc_path d)
      | cs => prefix_entry (doc_path d) (build_entry n docs <$> cs)
      end
  end.

(** Modelled from the spec: the root entry the route builder guarantees. *)
Definition root_entry : Route := leaf_entry root_path.

(** Modelled from the spec: the fallback entry the route builder appends.
    As in the committed tables it is not marked [exact]. *)
Definition fallback_entry : Route :=
  mkRoute fallback_path (componentRef fallback_path) false None None.

(** Modelled from the spec: the root entry is guaranteed present.  It is
    added after the document entries when no top-level document declares
    ['/'], which is where the committed tables have it. *)
Definition ensure_root (rs : list Route) : list Route :=
  if bool_decide (root_path ∈ path <$> rs) then rs else rs ++ [root_entry].

(** Modelled from the spec: [buildRoutes(documents)], which is not in the
    repository.  The build fails with [DuplicatePathError] when a path is
    declared twice and with [OrphanedChildError] when a parent path is
    declared by no document; otherwise it returns one entry per top-level
    document in input order, the root entry, and the fallback ['*'] entry
    appended last.  These are the only two errors: the fallback entry is
    appended whatever the documents declare.  The fuel given to
    [build_entry] is the number of documents, which the nesting depth of
    a duplicate-free sequence cannot reach ([build_entry_fuel_enough]).
    Entries are built from the parentless documents downwards, as the
    spec speaks of a content tree: every document whose chain of parents
    ends in a parentless document gets its entry
    ([buildRoutes_complete]); what a builder does with documents that are
    their own ancestors is not said, and here they get no entry. *)
Definition buildRoutes (docs : list Document) : BuildError + list Route :=
  match first_duplicate [] (doc_path <$> docs) with
  | Some p => inl (DuplicatePathError p)
  | None =>
      match first_orphan docs with
      | Some p => inl (OrphanedChildError p)
      | None =>
          inr (ensure_root (build_entry (length docs) docs <$> top_level docs)
               ++ [fallback_entry])
      end
  end.


(** Modelled from the spec: a document at depth [k] of the content tree.
    A parentless document is at depth 0, a document that names a document
    at depth [k] as its parent is at depth [k + 1]. *)
Inductive rooted (docs : list Document) : Document → nat → Prop :=
  | rooted_top d :
      d ∈ top_level docs → rooted docs d 0
  | rooted_child p d k :
      rooted docs p k → d ∈ children_of docs (doc_path p) →
      rooted docs d (S k).

(** Modelled from the spec: the position of a document in the nesting of
    the route builder's input.  [anc] holds the paths of the documents
    above [d], nearest first: it is duplicate-free, does not contain the
    path of [d], and is closed under taking parents. *)
Definition ancestry (docs : list Document) (anc : list string) (d : Document)
  : Prop :=
  d ∈ docs ∧
  (doc_path d ∉ anc) ∧
  NoDup anc ∧
  (∀ q, q ∈ anc → q ∈ doc_path <$> docs) ∧
  (∀ a q, a ∈ docs → doc_path a ∈ anc → doc_parent a = Some q → q ∈ anc) ∧
  (∀ q, doc_parent d = Some q → q ∈ anc).

(** ** The sidebar composer *)

(** Modelled from the spec: the only error of the sidebar composer, which
    is not in the repository. *)
Inductive SidebarError : Type :=
  | UnknownPageReferenceError (id : string).

(** Modelled from the spec: errors of the sidebar composer are fatal, so a
    list is traversed fail-fast and the first error wins. *)
Definition traverse {E A B : Type} (f : A → E + B) : list A → E + list B :=
  fix go (l : list A) : E + list B :=
    match l with
    | [] => inr []
    | x :: l' =>
        match f x with
        | inl e => inl e
        | inr y =>
            match go l' with
            | inl e => inl e
            | inr ys => inr (y :: ys)
            end
        end
    end.

(** Modelled from the spec: the sidebar composer on one item.  A document
    reference is checked against the known page ids; a category is rebuilt
    from its validated items. *)
Fixpoint compose_item (knownPages : gset string) (it : SidebarItem)
  : SidebarError + SidebarItem :=
  match it with
  | Doc id =>
      if bool_decide (id ∈ knownPages) then inr (Doc id)
      else inl (UnknownPageReferenceError id)
  | Category label collapsed items =>
      match traverse (compose_item knownPages) items with
      | inl e => inl e
      | inr items' => inr (Category label collapsed items')
      end
  end.

(** Modelled from the spec: [composeSidebar(tree, knownPages)], which is
    not in the repository. *)
Definition composeSidebar (tree : list SidebarItem) (knownPages : gset string)
  : SidebarError + list SidebarItem :=
  traverse (compose_item knownPages) tree.

(** Modelled from the spec: the reference the sidebar composer reports,
    the first document id in display order that is not a known page. *)
Definition first_unknown (knownPages : gset string) (ids : list string)
  : option string :=
  head (filter (λ id, id ∉ knownPages) ids).

(** Modelled from the spec: the outcome of the sidebar composer, given the
    first unknown reference. *)
Definition validated {A : Type} (unknown : option string) (x : A)
  : SidebarError + A :=
  match unknown with
  | Some id => inl (UnknownPageReferenceError id)
  | None => inr x
  end.

(** * Proofs about the committed artefacts *)

(** ** Soundness of the checkers *)

Lemma forallb_elem_of {A : Type} (f : A → bool) (l : list A) (x : A) :
  forallb f l = true → x ∈ l → f x = true.
Proof.
  intros Hall Hx. apply Is_true_true.
  apply Is_true_true, forallb_True in Hall.
  rewrite Forall_forall in Hall. by apply Hall.
Qed.



Lemma exact_leafb_sound rs :
  forallb exact_leafb (all_entries rs) = true → exact_entries_are_leaves rs.
Proof.
  intros H. split.
  - intros r Hr He. apply (forallb_elem_of _ _ r) in H; [|done].
    unfold exact_leafb in H. destruct (routes r); [|done].
    rewrite He in H. discriminate.
  - intros r cs Hr Hcs. apply (forallb_elem_of _ _ r) in H; [|done].
    unfold exact_leafb in H. rewrite Hcs in H. by apply negb_true_iff.
Qed.

Lemma sidebar_leafb_sound rs :
  forallb sidebar_leafb (all_entries rs) = true → sidebar_only_on_leaves rs.
Proof.
  intros H. split.
  - intros r Hr [s Hs]. apply (forallb_elem_of _ _ r) in H; [|done].
    unfold sidebar_leafb in H. rewrite Hs in H.
    by destruct (routes r).
  - intros r cs Hr Hcs. apply (forallb_elem_of _ _ r) in H; [|done].
    unfold sidebar_leafb in H. rewrite Hcs in H.
    by destruct (sidebar r).
Qed.

Lemma children_extendb_sound rs :
  forallb children_extendb (all_entries rs) = true → children_extend_parent rs.
Proof.
  intros H r cs c Hr Hcs Hc. apply (forallb_elem_of _ _ r) in H; [|done].
  unfold children_extendb in H. rewrite Hcs in H.
  by apply (forallb_elem_of _ _ c) in H.
Qed.

Lemma sidebar_resolvesb_sound tree rs :
  sidebar_resolvesb tree rs = true → sidebar_resolves tree rs.
Proof.
  intros H id Hid. apply (forallb_elem_of _ _ id) in H; [|done].
  by apply bool_decide_eq_true_1 in H.
Qed.

(** ** Invariants of the committed route tables *)

(** A property of every committed table, by running its checker. *)
Ltac by_evaluation sound :=
  repeat (apply Forall_cons_2;
          [simpl; apply sound; vm_compute; reflexivity|]);
  apply Forall_nil_2.

(** C8: in every committed route table an entry that carries a [sidebar]
    reference is an [exact: true] entry without nested routes, and no
    entry with nested routes carries one. *)
Theorem sidebar_reference_only_on_leaf_pages :
  Forall sidebar_only_on_leaves committed_route_tables.
Proof.
  by_evaluation sidebar_leafb_sound.
Qed.

(** C9: in every committed route table the path of each nested entry
    begins with the path of the entry it is nested under. *)
Theorem nested_paths_extend_parent_path :
  Forall children_extend_parent committed_route_tables.
Proof.
  by_evaluation children_extendb_sound.
Qed.

(** C7: every document id listed under [tutorialSidebar] in
    [sidebars.js] is served by a content page of each committed route
    table, and each later generation of the sidebar resolves in the table
    generated from it. *)
Theorem sidebar_references_resolve :
  Forall (sidebar_resolves tutorialSidebar_sidebars_js) committed_route_tables ∧
  Forall (λ '(tree, rs), sidebar_resolves tree rs) committed_generations.
Proof.
  split; by_evaluation sidebar_resolvesb_sound.
Qed.

(** ** The container *)


(** ** Further properties of the committed artefacts *)

(** In each generation the route entries that carry a [sidebar] field are
    exactly the pages of the documents listed in the sidebar. *)
Theorem sidebar_fields_follow_sidebar :
  Forall (λ '(tree, rs),
            list_to_set (doc_route_path <$> sidebar_ids tree)
            =@{gset string} list_to_set (sidebar_flagged rs))
         committed_generations.
Proof.
  repeat (apply Forall_cons_2;
          [simpl; apply (bool_decide_unpack _); vm_compute; exact I|]).
  apply Forall_nil_2.
Qed.

(** Every entry of every committed table creates its component from its
    own path. *)
Theorem component_created_from_entry_path :
  Forall (λ rs, Forall component_matches_path (all_entries rs))
         committed_route_tables.
Proof.
  repeat (apply Forall_cons_2;
          [apply (bool_decide_unpack _); vm_compute; exact I|]).
  apply Forall_nil_2.
Qed.

(** No two content pages of a committed table share a path, at whatever
    level they are nested; no document is listed twice in a sidebar. *)
Theorem content_pages_and_sidebar_ids_unique :
  Forall (λ rs, NoDup (content_pages rs)) committed_route_tables ∧
  Forall (λ '(tree, _), NoDup (sidebar_ids tree)) committed_generations.
Proof.
  split;
    repeat (apply Forall_cons_2;
            [simpl; apply (bool_decide_unpack _); vm_compute; exact I|]);
    apply Forall_nil_2.
Qed.

(** The container does not run as root.  The image stage ends under the
    user [nodejs], and [nodejs] is the user its [adduser] command creates.
    That command is in the [RUN] line right before the [USER] instruction,
    no [USER] instruction comes earlier, and the same line hands the
    working directory of the stage to the user. *)
Theorem container_runs_as_nodejs :
  effective_user (final_stage Dockerfile) = Some "nodejs" ∧
  created_user (final_stage Dockerfile) = Some "nodejs" ∧
  invocation_of "adduser" (final_stage Dockerfile)
  = Some ["adduser"; "-S"; "nodejs"; "-u"; "1001"] ∧
  workdir (final_stage Dockerfile) = Some "/app" ∧
  ∃ i c,
    final_stage Dockerfile !! i = Some (RUN c) ∧
    final_stage Dockerfile !! S i = Some (USER "nodejs") ∧
    effective_user (take i (final_stage Dockerfile)) = None ∧
    invocation_of "adduser" [RUN c]
    = invocation_of "adduser" (final_stage Dockerfile) ∧
    invocation_of "chown" [RUN c]
    = Some ["chown"; "-R"; "nodejs:nodejs"; "/app"].
Proof.
  split_and!; try (vm_compute; reflexivity).
  exists 4, "addgroup -g 1001 -S nodejs &&     adduser -S nodejs -u 1001 &&     chown -R nodejs:nodejs /app".
  split_and!; vm_compute; reflexivity.
Qed.

(** The pages nested under a prefix entry are listed in strictly ascending
    order of path in every committed table, while the top level is not in
    ascending order: the root ['/'] and the catch-all ['*'] come last. *)
Theorem nested_siblings_ascending_top_level_not :
  Forall (λ rs, Forall (λ lvl, ascending (path <$> lvl) = true)
                       (nested_levels rs) ∧
                ascending (path <$> rs) = false)
         committed_route_tables.
Proof.
  repeat (apply Forall_cons_2;
          [split; [apply (bool_decide_unpack _); vm_compute; exact I
                  |vm_compute; reflexivity]|]).
  apply Forall_nil_2.
Qed.

(** ** Configuration, home page and documents against the tables *)

(** The footer links of the site configuration and the redirect of the
    home page lead to content pages of every committed table. *)
Theorem internal_links_resolve :
  Forall (λ rs, Forall (λ l, l ∈ content_pages rs)
                       (home_redirect :: home_link :: footer_targets config))
         committed_route_tables.
Proof.
  repeat (apply Forall_cons_2;
          [apply (bool_decide_unpack _); vm_compute; exact I|]).
  apply Forall_nil_2.
Qed.

(** The sidebar the navbar links to is a key of every committed sidebars
    object, every [sidebar] field of every committed table names it, and
    the base URL of the configuration is the path of an [exact] top-level
    entry of every committed table. *)
Theorem configuration_agrees_with_sidebars_and_tables :
  navbar_sidebar_ids config ≠ [] ∧
  Forall (λ sid, Forall (λ sb, sid ∈ sb.*1) committed_sidebars)
         (navbar_sidebar_ids config) ∧
  Forall (λ rs, Forall (sidebar_among (navbar_sidebar_ids config))
                       (all_entries rs) ∧
                Exists (λ r, path r = baseUrl config ∧ exact r = true) rs)
         committed_route_tables.
Proof.
  split_and!; [done| |].
  - apply (bool_decide_unpack _). vm_compute. exact I.
  - repeat (apply Forall_cons_2;
            [split; apply (bool_decide_unpack _); vm_compute; exact I|]).
    apply Forall_nil_2.
Qed.

(** The home page redirects to the page it also links to, and that page
    is the first document of every committed sidebar. *)
Theorem home_page_opens_first_sidebar_document :
  home_redirect = home_link ∧
  Forall (λ sb, Forall (λ '(_, tree),
                          doc_route_path <$> head (sidebar_ids tree)
                          = Some home_redirect) sb)
         committed_sidebars.
Proof.
  split; [reflexivity|].
  apply (bool_decide_unpack _). vm_compute. exact I.
Qed.

(** Across the committed tables, two entries without nested routes that
    have the same path carry the same hash exactly when they carry the
    same [sidebar] field. *)
Theorem hash_changes_exactly_with_sidebar :
  Forall (λ a, Forall (λ b, path a = path b →
                            (hash_of a = hash_of b → sidebar a = sidebar b) ∧
                            (sidebar a = sidebar b → hash_of a = hash_of b))
                      committed_leaves)
         committed_leaves.
Proof.
  apply (bool_decide_unpack _). vm_compute. exact I.
Qed.

(** Every page a smaller committed table serves under the route base path
    is served by the larger ones: no documentation URL is dropped. *)
Theorem served_pages_only_grow :
  page_ids routes_part_000_second ⊆ page_ids routes_part_001 ∧
  page_ids routes_part_001 ⊆ page_ids routes_part_000_first.
Proof.
  split; apply (bool_decide_unpack _); vm_compute; exact I.
Qed.

(** Every content document whose file name is known has a content page in
    the largest committed table, at its path under [docs/] without the
    extension. *)
Theorem located_documents_are_routed :
  Forall (document_routed routes_part_000_first) content_documents.
Proof.
  apply (bool_decide_unpack _). vm_compute. exact I.
Qed.

(** In a content document whose file name is known, every Markdown link
    without a URL scheme leads, from the directory of the document, to a
    content page of the largest committed table. *)
Theorem located_document_links_resolve :
  Forall (located_links_resolve routes_part_000_first) content_documents.
Proof.
  apply (bool_decide_unpack _). vm_compute. exact I.
Qed.

(** For a content document whose file name is not known, the docs tree
    has a directory from which every Markdown link of the document
    without a URL scheme leads to a content page of the largest committed
    table. *)
Theorem unlocated_document_links_resolve :
  Forall (unlocated_links_resolve routes_part_000_first) content_documents.
Proof.
  apply (bool_decide_unpack _). vm_compute. exact I.
Qed.


(** ** The documented deployment against the Dockerfile *)

(** The Dockerfile of the deployment guide and the committed Dockerfile
    configure the same server.  Their build stages differ in the base
    image only; their image stages have the same working directory, copy
    the same build output, expose the same port, run the same health
    check and start the same command.  Every instruction of the guide's
    image stage is in the committed one, which adds only the [RUN] line
    that creates the user [nodejs] and the switch to that user. *)
Theorem guide_dockerfile_configures_same_server :
  ∃ gb gi cb ci,
    stages guide_Dockerfile = [gb; gi] ∧
    stages Dockerfile = [cb; ci] ∧
    head gb = Some (FROM "node:18-alpine" (Some "builder")) ∧
    head cb = Some (FROM "node:22-alpine" (Some "builder")) ∧
    tail gb = tail cb ∧
    workdir gi = workdir ci ∧
    copies gi = copies ci ∧
    exposed gi = exposed ci ∧
    healthchecks gi = healthchecks ci ∧
    effective_cmd gi = effective_cmd ci ∧
    is_Some (effective_cmd ci) ∧
    Forall (λ i, i ∈ ci) (tail gi) ∧
    filter (λ i, i ∉ gi) (tail ci)
    = [ RUN "addgroup -g 1001 -S nodejs &&     adduser -S nodejs -u 1001 &&     chown -R nodejs:nodejs /app";
        USER "nodejs" ] ∧
    head gi = Some (FROM "node:18-alpine" None) ∧
    head ci = Some (FROM "node:22-alpine" None).
Proof.
  eexists _, _, _, _.
  split_and!; try (vm_compute; reflexivity).
  - vm_compute. by eexists.
  - apply (bool_decide_unpack _). vm_compute. exact I.
Qed.

(** Every documented [docker run] of the image and every documented
    compose file publishes the port the server of the image listens on,
    which is the port the image exposes; the host port is free (one
    documented command publishes it on another host port). *)
Theorem documented_runs_publish_server_port :
  ∃ port,
    server_port (final_stage Dockerfile) = Some port ∧
    exposed (final_stage Dockerfile) = [port] ∧
    Forall (λ '(_, _, command), publishes_to (Some port) command)
           documented_docker_runs ∧
    Forall (λ '(_, _, m), snd <$> port_mapping m = Some port)
           documented_compose_ports ∧
    Exists (λ '(_, _, command),
              ∃ host,
                (option_value "-p" (words command) ≫= port_mapping)
                = Some (host, port) ∧ host ≠ port)
           documented_docker_runs.
Proof.
  eexists. split_and!; try (vm_compute; reflexivity).
  - apply (bool_decide_unpack _). vm_compute. exact I.
  - apply (bool_decide_unpack _). vm_compute. exact I.
  - do 8 apply Exists_cons_tl. apply Exists_cons_hd.
    exists "3001". split; [vm_compute; reflexivity|done].
Qed.

(** The health checks of the documented compose files run the command of
    the image's own health check: the words after [CMD] are the first
    words of the [HEALTHCHECK] command of the Dockerfile, up to its
    [|| exit 1]. *)
Theorem compose_healthchecks_probe_like_image :
  ∃ command,
    effective_healthcheck (final_stage Dockerfile) = Some command ∧
    Forall (λ '(_, _, test),
              head test = Some "CMD" ∧
              words command = tail test ++ ["||"; "exit"; "1"])
           documented_compose_healthchecks.
Proof.
  eexists. split; [vm_compute; reflexivity|].
  apply (bool_decide_unpack _). vm_compute. exact I.
Qed.

(** The documented Kubernetes deployment matches the image.  The probes
    of the container go, by port name, to the port the server of the
    image listens on and to the path its health check probes; the
    container runs as the user id the image creates, the pod's file
    system group is the group id the image creates, and the metrics
    annotation names the server port.  The service targets the same port
    by name, and the documented port-forward goes to the port of the
    service. *)
Theorem kubernetes_deployment_matches_image :
  ∃ port path uid gid,
    server_port (final_stage Dockerfile) = Some port ∧
    health_path (final_stage Dockerfile) = Some path ∧
    created_uid (final_stage Dockerfile) = Some uid ∧
    created_gid (final_stage Dockerfile) = Some gid ∧
    containers deployment_template ≠ [] ∧
    Forall (container_matches (Some port) (Some path) (Some uid))
           (containers deployment_template) ∧
    pod_fsGroup deployment_template = gid ∧
    pod_annotations deployment_template !! 1
    = Some ("prometheus.io/port", port) ∧
    Forall (λ sp, Forall (λ c, named_port c (targetPort sp) = Some port)
                         (containers deployment_template) ∧
                  (option_value "svc/mlops-docs" (words documented_port_forward)
                   ≫= port_mapping) = Some ("3000", service_port sp))
           service_ports.
Proof.
  eexists _, _, _, _.
  split_and!; try (vm_compute; reflexivity); try done.
  - apply (bool_decide_unpack _). vm_compute. exact I.
  - apply (bool_decide_unpack _). vm_compute. exact I.
Qed.

(** * Proofs about the modelled operations *)

(** ** Facts about the builder *)

Lemma first_duplicate_None seen ps :
  first_duplicate seen ps = None →
  NoDup ps ∧ ∀ p, p ∈ ps → p ∉ seen.
Proof.
  revert seen. induction ps as [|p ps IH]; intros seen H; simpl in H.
  - split; [constructor|]. intros p Hp. by apply elem_of_nil in Hp.
  - case_bool_decide as Hseen; [discriminate|].
    apply IH in H as [Hnd Hfresh]. split.
    + apply NoDup_cons. split; [|done].
      intros Hp. apply (Hfresh p Hp). by left.
    + intros q [->|Hq]%elem_of_cons; [done|].
      intros Hq'. apply (Hfresh q Hq). by right.
Qed.

Lemma first_duplicate_Some seen ps p :
  first_duplicate seen ps = Some p →
  p ∈ ps ∧ (p ∈ seen ∨ ∃ l1 l2 l3, ps = l1 ++ p :: l2 ++ p :: l3).
Proof.
  revert seen. induction ps as [|q ps IH]; intros seen H; simpl in H.
  - discriminate.
  - case_bool_decide as Hseen.
    + injection H as ->. split; [by left | by left].
    + apply IH in H as [Hin Hcase]. split; [by right|].
      destruct Hcase as [[->|Hs]%elem_of_cons | (l1 & l2 & l3 & ->)].
      * right. apply list_elem_of_split in Hin as (l2 & l3 & ->).
        by exists [], l2, l3.
      * by left.
      * right. by exists (q :: l1), l2, l3.
Qed.

Lemma build_entry_path n docs d : path (build_entry n docs d) = doc_path d.
Proof.
  destruct n as [|n]; simpl; [done|].
  by destruct (children_of docs (doc_path d)).
Qed.

Lemma build_entry_paths n docs (ds : list Document) :
  path <$> (build_entry n docs <$> ds) = doc_path <$> ds.
Proof.
  rewrite <-list_fmap_compose. apply list_fmap_ext.
  intros _ d _. simpl. apply build_entry_path.
Qed.

(** The shape of a built entry: an [exact] leaf, or a prefix entry over
    the entries of the children of its path. *)
Lemma build_entry_shape n docs d :
  build_entry n docs d = leaf_entry (doc_path d) ∨
  ∃ m, build_entry n docs d =
       prefix_entry (doc_path d)
                    (build_entry m docs <$> children_of docs (doc_path d)).
Proof.
  destruct n as [|n]; simpl; [by left|].
  destruct (children_of docs (doc_path d)) eqn:E; [by left|].
  right. by exists n.
Qed.

(** Every entry nested in a built entry is a built entry. *)
Lemma entries_of_build_entry n docs d r :
  r ∈ entries_of (build_entry n docs d) →
  ∃ m d', r = build_entry m docs d'.
Proof.
  revert d r. induction n as [|n IH]; intros d r; simpl.
  - intros ->%list_elem_of_singleton.
    by exists 0, d.
  - destruct (children_of docs (doc_path d)) as [|c cs] eqn:E.
    + intros ->%list_elem_of_singleton. exists 0, d. done.
    + simpl. intros [->|Hr]%elem_of_cons.
      * exists (S n), d. simpl. by rewrite E.
      * change (r ∈ ((build_entry n docs <$> c :: cs) ≫= entries_of)) in Hr.
        apply list_elem_of_bind in Hr as (e & Hr & He).
        apply list_elem_of_fmap in He as (d' & -> & _).
        by apply IH in Hr.
Qed.


(** What a successful build says about its input and its output. *)
Lemma buildRoutes_inr docs reg :
  buildRoutes docs = inr reg →
  NoDup (doc_path <$> docs) ∧
  reg = ensure_root (build_entry (length docs) docs <$> top_level docs)
        ++ [fallback_entry].
Proof.
  unfold buildRoutes. intros H.
  destruct (first_duplicate _ _) eqn:Hdup; [discriminate|].
  destruct (first_orphan docs); [discriminate|].
  apply first_duplicate_None in Hdup as [Hnd _].
  split; [done|congruence].
Qed.

Lemma top_level_paths_sublist docs :
  (doc_path <$> top_level docs) `sublist_of` (doc_path <$> docs).
Proof. apply fmap_sublist, sublist_filter. Qed.

Lemma children_paths_sublist docs p :
  (doc_path <$> children_of docs p) `sublist_of` (doc_path <$> docs).
Proof. apply fmap_sublist, sublist_filter. Qed.

(** The top-level paths of a built table: the top-level documents in
    input order, then the entries the builder adds. *)
Lemma buildRoutes_top_paths docs reg :
  buildRoutes docs = inr reg →
  path <$> reg =
    (doc_path <$> top_level docs)
    ++ (if bool_decide (root_path ∈ doc_path <$> top_level docs)
        then [] else [root_path])
    ++ [fallback_path].
Proof.
  intros (_ & ->)%buildRoutes_inr.
  rewrite fmap_app. unfold ensure_root.
  rewrite build_entry_paths.
  case_bool_decide.
  - by rewrite build_entry_paths.
  - by rewrite fmap_app, <-(assoc_L (++)), build_entry_paths.
Qed.

Lemma root_entry_built docs :
  root_entry = build_entry 0 docs (mkDocument root_path None).
Proof. done. Qed.

Lemma ensure_root_elem_of rs r :
  r ∈ ensure_root rs → r ∈ rs ∨ r = root_entry.
Proof.
  unfold ensure_root. case_bool_decide; [by left|].
  intros [?|?%list_elem_of_singleton]%elem_of_app; auto.
Qed.

(** Every entry of a built table is a built entry or the fallback. *)
Lemma buildRoutes_entries docs reg r :
  buildRoutes docs = inr reg → r ∈ all_entries reg →
  (∃ m d, r = build_entry m docs d) ∨ r = fallback_entry.
Proof.
  intros (_ & ->)%buildRoutes_inr.
  unfold all_entries. intros (e & Hr & He)%list_elem_of_bind.
  apply elem_of_app in He as [He| ->%list_elem_of_singleton].
  - left. apply ensure_root_elem_of in He as [He| ->].
    + apply list_elem_of_fmap in He as (d & -> & _).
      by apply entries_of_build_entry in Hr.
    + apply list_elem_of_singleton in Hr as ->.
      eexists 0, _. apply root_entry_built.
  - right. by apply list_elem_of_singleton in Hr.
Qed.







(** ** The builder accepts valid input, and only valid input *)




(** ** What the errors of the builder mean *)

Lemma first_duplicate_repeated seen l1 l2 l3 p :
  ∃ q, first_duplicate seen (l1 ++ p :: l2 ++ p :: l3) = Some q.
Proof.
  revert seen. induction l1 as [|a l1 IH]; intros seen; simpl.
  - case_bool_decide; [by eexists|].
    destruct (first_duplicate (p :: seen) (l2 ++ p :: l3)) as [q|] eqn:E;
      [by eexists|].
    apply first_duplicate_None in E as [_ Hfresh].
    destruct (Hfresh p); [|by left].
    apply elem_of_app. right. by left.
  - case_bool_decide; [by eexists|]. apply IH.
Qed.

(** A path declared by two documents of the sequence always ends the
    build with [DuplicatePathError]. *)
Lemma buildRoutes_duplicate docs l1 l2 l3 p :
  doc_path <$> docs = l1 ++ p :: l2 ++ p :: l3 →
  ∃ q, buildRoutes docs = inl (DuplicatePathError q).
Proof.
  intros Hp. unfold buildRoutes. rewrite Hp.
  destruct (first_duplicate_repeated [] l1 l2 l3 p) as [q ->].
  by exists q.
Qed.

(** [DuplicatePathError p] is raised only for a path that two documents
    declare. *)
Lemma buildRoutes_DuplicatePathError docs p :
  buildRoutes docs = inl (DuplicatePathError p) →
  ∃ l1 l2 l3, doc_path <$> docs = l1 ++ p :: l2 ++ p :: l3.
Proof.
  unfold buildRoutes. intros H.
  destruct (first_duplicate _ _) as [q|] eqn:E.
  - injection H as ->.
    apply first_duplicate_Some in E as [_ [Hs|Hd]]; [|done].
    by apply elem_of_nil in Hs.
  - by destruct (first_orphan docs).
Qed.

(** [OrphanedChildError p] is raised only for a document [p] whose parent
    path is declared by no document, and only when no path is declared
    twice. *)
Lemma buildRoutes_OrphanedChildError docs p :
  buildRoutes docs = inl (OrphanedChildError p) →
  NoDup (doc_path <$> docs) ∧
  ∃ d q, d ∈ docs ∧ doc_path d = p ∧ doc_parent d = Some q ∧
         q ∉ doc_path <$> docs.
Proof.
  unfold buildRoutes. intros H.
  destruct (first_duplicate _ _) as [q|] eqn:E; [discriminate|].
  apply first_duplicate_None in E as [Hnd _]. split; [done|].
  destruct (first_orphan docs) as [q|] eqn:Eo; [|discriminate].
  injection H as ->. unfold first_orphan in Eo.
  apply fmap_Some in Eo as (d & Hd%head_Some_elem_of & ->).
  apply list_elem_of_filter in Hd as [Ho Hd].
  unfold is_orphan in Ho. destruct (doc_parent d) as [q|] eqn:Eq; [|done].
  by exists d, q.
Qed.

(** ** The fuel of the builder is enough *)

Lemma unique_path_same_document docs (a b : Document) :
  NoDup (doc_path <$> docs) → a ∈ docs → b ∈ docs →
  doc_path a = doc_path b → a = b.
Proof.
  induction docs as [|d docs IH]; intros Hnd Ha Hb Hab.
  - by apply elem_of_nil in Ha.
  - rewrite fmap_cons in Hnd. apply NoDup_cons in Hnd as [Hd Hnd].
    apply elem_of_cons in Ha as [->|Ha]; apply elem_of_cons in Hb as [->|Hb].
    + done.
    + destruct Hd. rewrite Hab. by apply list_elem_of_fmap_2.
    + destruct Hd. rewrite <-Hab. by apply list_elem_of_fmap_2.
    + by apply IH.
Qed.

Lemma ancestry_top docs d :
  d ∈ top_level docs → ancestry docs [] d.
Proof.
  intros [Hp Hd]%list_elem_of_filter. split_and!; try done.
  - apply not_elem_of_nil.
  - constructor.
  - intros q Hq. by apply elem_of_nil in Hq.
  - intros a q _ Ha. by apply elem_of_nil in Ha.
  - intros q Hq. congruence.
Qed.

Lemma ancestry_child docs anc d c :
  NoDup (doc_path <$> docs) → ancestry docs anc d →
  c ∈ children_of docs (doc_path d) →
  ancestry docs (doc_path d :: anc) c.
Proof.
  intros Hnd (Hd & Hfresh & Hanc & Hsub & Hclosed & Hparent).
  intros [Hc Hcd]%list_elem_of_filter. split_and!.
  - done.
  - intros [Heq|Hin]%elem_of_cons.
    + assert (c = d) as -> by by eapply unique_path_same_document.
      apply Hfresh. by apply Hparent.
    + apply Hfresh. by eapply Hclosed.
  - by apply NoDup_cons.
  - intros q [->|Hq]%elem_of_cons; [by apply list_elem_of_fmap_2|by apply Hsub].
  - intros a q Ha [Heq|Hin]%elem_of_cons Hq.
    + assert (a = d) as -> by by eapply unique_path_same_document.
      right. by apply Hparent.
    + right. by eapply Hclosed.
  - intros q Hq. rewrite Hc in Hq. injection Hq as <-. by left.
Qed.

(** A document has fewer ancestors than there are documents. *)
Lemma ancestry_length docs anc d :
  ancestry docs anc d → S (length anc) ≤ length docs.
Proof.
  intros (Hd & Hfresh & Hanc & Hsub & _ & _).
  change (length (doc_path d :: anc) ≤ length docs).
  rewrite <-(length_fmap doc_path docs).
  apply submseteq_length, NoDup_submseteq; [by apply NoDup_cons|].
  intros q [->|Hq]%elem_of_cons; [by apply list_elem_of_fmap_2|by apply Hsub].
Qed.

Lemma build_entry_fuel docs anc d n m :
  NoDup (doc_path <$> docs) → ancestry docs anc d →
  length docs ≤ n + length anc → length docs ≤ m + length anc →
  build_entry n docs d = build_entry m docs d.
Proof.
  intros Hnd. revert m anc d.
  induction n as [|n IH]; intros m anc d Hanc Hn Hm;
    pose proof (ancestry_length _ _ _ Hanc) as Hlen; [lia|].
  destruct m as [|m]; [lia|].
  assert (build_entry n docs <$> children_of docs (doc_path d)
          = build_entry m docs <$> children_of docs (doc_path d)) as Hcs.
  { apply list_fmap_ext. intros i c Hc.
    apply (IH m (doc_path d :: anc)); simpl; [|lia|lia].
    apply (ancestry_child docs anc d c Hnd Hanc).
    by eapply list_elem_of_lookup_2. }
  change (build_entry (S n) docs d) with
    (match children_of docs (doc_path d) with
     | [] => leaf_entry (doc_path d)
     | cs => prefix_entry (doc_path d) (build_entry n docs <$> cs)
     end).
  change (build_entry (S m) docs d) with
    (match children_of docs (doc_path d) with
     | [] => leaf_entry (doc_path d)
     | cs => prefix_entry (doc_path d) (build_entry m docs <$> cs)
     end).
  revert Hcs. destruct (children_of docs (doc_path d)); [done|].
  by intros ->.
Qed.

(** With unique paths the entry of a top-level document does not depend on
    the fuel once the fuel reaches the number of documents. *)
Lemma build_entry_fuel_enough docs d n :
  NoDup (doc_path <$> docs) → d ∈ top_level docs → length docs ≤ n →
  build_entry n docs d = build_entry (length docs) docs d.
Proof.
  intros Hnd Hd Hn. apply (build_entry_fuel docs [] d); simpl; try lia; try done.
  by apply ancestry_top.
Qed.

(** ** Which documents get an entry *)

Lemma entries_of_self r : r ∈ entries_of r.
Proof. destruct r. simpl. by left. Qed.

Lemma entries_of_build_entry_child n docs p d r :
  d ∈ children_of docs (doc_path p) →
  r ∈ entries_of (build_entry n docs d) →
  r ∈ entries_of (build_entry (S n) docs p).
Proof.
  intros Hd Hr. simpl.
  destruct (children_of docs (doc_path p)) as [|c cs] eqn:E;
    [by apply elem_of_nil in Hd|].
  simpl. right.
  change (r ∈ (build_entry n docs <$> c :: cs) ≫= entries_of).
  apply list_elem_of_bind. exists (build_entry n docs d).
  split; [done|by apply list_elem_of_fmap_2].
Qed.

(** A document at depth [k] of the content tree has [k] ancestors. *)
Lemma rooted_ancestry docs d k :
  NoDup (doc_path <$> docs) → rooted docs d k →
  ∃ anc, ancestry docs anc d ∧ length anc = k.
Proof.
  intros Hnd. induction 1 as [d Hd|p d k Hp (anc & Hanc & Hlen) Hd].
  - exists []. split; [by apply ancestry_top|done].
  - exists (doc_path p :: anc). split; [by eapply ancestry_child|].
    simpl. by rewrite Hlen.
Qed.

Lemma rooted_fuel docs d k n :
  NoDup (doc_path <$> docs) → rooted docs d k → length docs ≤ n + k →
  0 < n ∧ build_entry n docs d = build_entry (length docs) docs d.
Proof.
  intros Hnd Hd Hn.
  destruct (rooted_ancestry _ _ _ Hnd Hd) as (anc & Hanc & Hlen).
  pose proof (ancestry_length _ _ _ Hanc) as Hl.
  split; [lia|]. apply (build_entry_fuel docs anc d); [done|done|lia|lia].
Qed.

Lemma rooted_entries docs d k r :
  NoDup (doc_path <$> docs) → rooted docs d k →
  r ∈ entries_of (build_entry (length docs - k) docs d) →
  r ∈ all_entries (build_entry (length docs) docs <$> top_level docs).
Proof.
  intros Hnd Hroot. revert r.
  induction Hroot as [d Hd|p d k Hp IH Hd]; intros r Hr.
  - rewrite Nat.sub_0_r in Hr. apply list_elem_of_bind.
    exists (build_entry (length docs) docs d).
    split; [done|by apply list_elem_of_fmap_2].
  - apply IH.
    destruct (rooted_fuel docs d (S k) (length docs - S k) Hnd) as [Hpos _];
      [by eapply rooted_child|lia|].
    replace (length docs - k) with (S (length docs - S k)) by lia.
    by apply entries_of_build_entry_child with d.
Qed.

Lemma all_entries_ensure_root rs r :
  r ∈ all_entries rs → r ∈ all_entries (ensure_root rs ++ [fallback_entry]).
Proof.
  unfold all_entries. intros (e & Hr & He)%list_elem_of_bind.
  apply list_elem_of_bind. exists e. split; [done|].
  apply elem_of_app. left. unfold ensure_root.
  case_bool_decide; [done|]. apply elem_of_app. by left.
Qed.

(** The built table has the entry of every document of the content tree:
    of every parentless document, and of every document whose parent has
    an entry.  The entry carries the path of the document and, nested
    under it, the entries of its children. *)
Lemma buildRoutes_complete docs reg d k :
  buildRoutes docs = inr reg → rooted docs d k →
  build_entry (length docs) docs d ∈ all_entries reg ∧
  path (build_entry (length docs) docs d) = doc_path d.
Proof.
  intros (Hnd & ->)%buildRoutes_inr Hroot.
  split; [|apply build_entry_path].
  apply all_entries_ensure_root, (rooted_entries docs d k); [done|done|].
  destruct (rooted_fuel docs d k (length docs - k) Hnd Hroot) as [_ ->];
    [lia|].
  apply entries_of_self.
Qed.

Lemma rooted_entries_inv docs n d k r :
  NoDup (doc_path <$> docs) → rooted docs d k → length docs ≤ n + k →
  r ∈ entries_of (build_entry n docs d) →
  ∃ d' k', rooted docs d' k' ∧ r = build_entry (length docs) docs d'.
Proof.
  intros Hnd. revert d k r.
  induction n as [|n IH]; intros d k r Hroot Hn;
    destruct (rooted_fuel docs d k _ Hnd Hroot Hn) as [Hpos Heq]; [lia|].
  revert Heq. simpl.
  destruct (children_of docs (doc_path d)) as [|c cs] eqn:E.
  - intros Heq ->%list_elem_of_singleton. by exists d, k.
  - simpl. intros Heq [->|Hr]%elem_of_cons; [by exists d, k|].
    change (r ∈ ((build_entry n docs <$> c :: cs) ≫= entries_of)) in Hr.
    apply list_elem_of_bind in Hr as (e & Hr & He).
    apply list_elem_of_fmap in He as (d' & -> & Hd').
    apply (IH d' (S k) r); [|lia|done].
    apply (rooted_child docs d d' k Hroot). by rewrite E.
Qed.

(** Conversely, every entry of a built table is the root entry, the
    fallback entry or the entry of a document of the content tree:
    documents that are their own ancestors have no entry. *)
Lemma buildRoutes_entries_rooted docs reg r :
  buildRoutes docs = inr reg → r ∈ all_entries reg →
  r = root_entry ∨ r = fallback_entry ∨
  ∃ d k, rooted docs d k ∧ r = build_entry (length docs) docs d.
Proof.
  intros (Hnd & ->)%buildRoutes_inr.
  unfold all_entries. intros (e & Hr & He)%list_elem_of_bind.
  apply elem_of_app in He as [He| ->%list_elem_of_singleton].
  - apply ensure_root_elem_of in He as [He| ->].
    + apply list_elem_of_fmap in He as (d & -> & Hd).
      right. right.
      apply (rooted_entries_inv docs (length docs) d 0); [done| |lia|done].
      by apply rooted_top.
    + left. by apply list_elem_of_singleton in Hr.
  - right. left. by apply list_elem_of_singleton in Hr.
Qed.

(** A document that names itself as its parent is in no error condition
    and is not in the content tree: the table is built without it. *)
Example buildRoutes_self_parent :
  buildRoutes [mkDocument "/docs/a" (Some "/docs/a")]
  = inr [root_entry; fallback_entry].
Proof. vm_compute. reflexivity. Qed.

(** ** Invariants of built tables and of the committed tables *)





Lemma buildRoutes_exact_entries_are_leaves docs reg :
  buildRoutes docs = inr reg → exact_entries_are_leaves reg.
Proof.
  intros Hb. split.
  - intros r Hr He.
    destruct (buildRoutes_entries _ _ _ Hb Hr) as [(m & d & ->)| ->].
    + destruct (build_entry_shape m docs d) as [Hs|[k Hs]];
        rewrite Hs in He |- *; [done|discriminate].
    + done.
  - intros r cs Hr Hcs.
    destruct (buildRoutes_entries _ _ _ Hb Hr) as [(m & d & ->)| ->].
    + destruct (build_entry_shape m docs d) as [Hs|[k Hs]];
        rewrite Hs in Hcs |- *; [discriminate|done].
    + done.
Qed.







(** C6: an entry marked [exact: true] has no nested routes, and an entry
    with nested routes is not marked [exact], in every committed route
    table and in the table built from any document sequence. *)
Theorem exact_entries_have_no_children :
  Forall exact_entries_are_leaves committed_route_tables ∧
  (∀ docs reg, buildRoutes docs = inr reg → exact_entries_are_leaves reg).
Proof.
  split; [|exact buildRoutes_exact_entries_are_leaves].
  by_evaluation exact_leafb_sound.
Qed.

Lemma exact_entries_example :
  exact_entries_are_leaves
    [ prefix_entry "/docs" [leaf_entry "/docs/a"]; root_entry; fallback_entry ].
Proof.
  apply (proj2 exact_entries_have_no_children
               [ mkDocument "/docs" None;
                 mkDocument "/docs/a" (Some "/docs") ]).
  vm_compute. reflexivity.
Defined.

(** ** The composer *)

Lemma SidebarItem_ind' (P : SidebarItem → Prop) :
  (∀ id, P (Doc id)) →
  (∀ label collapsed its, Forall P its → P (Category label collapsed its)) →
  ∀ it, P it.
Proof.
  intros Hdoc Hcat. fix IH 1. intros [id|label collapsed its].
  - apply Hdoc.
  - apply Hcat. induction its as [|it its IHits]; constructor; [apply IH|done].
Qed.

Lemma first_unknown_app known ids1 ids2 :
  first_unknown known (ids1 ++ ids2) =
  match first_unknown known ids1 with
  | Some id => Some id
  | None => first_unknown known ids2
  end.
Proof. unfold first_unknown. by rewrite filter_app, head_app. Qed.

(** Traversing a list of items whose composition is characterised. *)
Lemma traverse_compose known (its : list SidebarItem) :
  Forall (λ it, compose_item known it
                = validated (first_unknown known (leaf_ids it)) it) its →
  traverse (compose_item known) its
  = validated (first_unknown known (its ≫= leaf_ids)) its.
Proof.
  induction 1 as [|it its Hit _ IH]; [done|].
  rewrite bind_cons, first_unknown_app. simpl. rewrite Hit.
  destruct (first_unknown known (leaf_ids it)); [done|]. simpl.
  rewrite IH. by destruct (first_unknown known (its ≫= leaf_ids)).
Qed.

Lemma compose_item_spec known it :
  compose_item known it = validated (first_unknown known (leaf_ids it)) it.
Proof.
  induction it as [id|label collapsed its IH] using SidebarItem_ind'.
  - simpl. unfold first_unknown. rewrite filter_cons, filter_nil.
    case_bool_decide as Hid.
    + by rewrite decide_False by (by intros ?).
    + by rewrite decide_True.
  - simpl. rewrite (traverse_compose _ _ IH).
    by destruct (first_unknown known (its ≫= leaf_ids)).
Qed.

(** The composer fails on the first unknown reference and otherwise
    returns its input. *)
Lemma composeSidebar_spec tree known :
  composeSidebar tree known
  = validated (first_unknown known (sidebar_ids tree)) tree.
Proof.
  apply traverse_compose, Forall_forall. intros it _. apply compose_item_spec.
Qed.

Lemma first_unknown_Some known ids id :
  first_unknown known ids = Some id → id ∈ ids ∧ id ∉ known.
Proof.
  unfold first_unknown. intros H%head_Some_elem_of.
  apply list_elem_of_filter in H. tauto.
Qed.

Lemma first_unknown_None known ids :
  first_unknown known ids = None ↔ ∀ id, id ∈ ids → id ∈ known.
Proof.
  unfold first_unknown. rewrite head_None. split.
  - intros H id Hid. destruct (decide (id ∈ known)); [done|].
    by destruct (filter_nil_not_elem_of _ _ id H).
  - intros H. induction ids as [|id ids IH]; [done|].
    rewrite filter_cons. rewrite decide_False.
    + apply IH. intros ??. apply H. by right.
    + intros Hn. apply Hn, H. by left.
Qed.

(** C2: [composeSidebar] fails with [UnknownPageReferenceError] exactly
    when some leaf identifier of the tree is not in [knownPages]; when
    every leaf identifier is known it succeeds and returns the tree it was
    given, with the order of the items and the [collapsed] flag of every
    category as declared. *)
Theorem composeSidebar_fails_iff_unknown_reference
    (tree : list SidebarItem) (knownPages : gset string) :
  ((∃ id, composeSidebar tree knownPages = inl (UnknownPageReferenceError id))
   ↔ (∃ id, id ∈ sidebar_ids tree ∧ id ∉ knownPages)) ∧
  ((∀ id, id ∈ sidebar_ids tree → id ∈ knownPages) →
   composeSidebar tree knownPages = inr tree).
Proof.
  rewrite composeSidebar_spec. split; [split|].
  - intros [id H]. destruct (first_unknown _ _) as [id'|] eqn:E; [|done].
    exists id'. by apply first_unknown_Some in E.
  - intros (id & Hid & Hn).
    destruct (first_unknown _ _) as [id'|] eqn:E; [by exists id'|].
    destruct Hn. by eapply first_unknown_None.
  - intros H%first_unknown_None. by rewrite H.
Qed.

Lemma composeSidebar_committed_example :
  composeSidebar tutorialSidebar_part_015 (page_ids routes_part_001)
  = inr tutorialSidebar_part_015.
Proof.
  apply (composeSidebar_fails_iff_unknown_reference
           tutorialSidebar_part_015 (page_ids routes_part_001)).
  apply Forall_forall. apply (bool_decide_unpack _). vm_compute. exact I.
Defined.

(** ** Sibling order *)

Lemma buildRoutes_children_order docs reg r cs :
  buildRoutes docs = inr reg → r ∈ all_entries reg → routes r = Some cs →
  path <$> cs = doc_path <$> children_of docs (path r).
Proof.
  intros Hb Hr Hcs.
  destruct (buildRoutes_entries _ _ _ Hb Hr) as [(m & d & ->)| ->];
    [|discriminate].
  rewrite build_entry_path.
  destruct (build_entry_shape m docs d) as [Hs|[k Hs]]; rewrite Hs in Hcs.
  - discriminate.
  - injection Hcs as <-. apply build_entry_paths.
Qed.

(** C5: the siblings of a built table follow the input document sequence.
    The top-level paths are those of the top-level documents in input
    order, followed by the entries the builder adds; the children of an
    entry are the documents that name it as parent, in input order; both
    are subsequences of the input.  [composeSidebar] returns the items in
    the order in which they were given.  Nothing is sorted. *)
Theorem sibling_order_follows_input :
  (∀ docs reg, buildRoutes docs = inr reg →
     (path <$> reg =
        (doc_path <$> top_level docs)
        ++ (if bool_decide (root_path ∈ doc_path <$> top_level docs)
            then [] else [root_path])
        ++ [fallback_path]) ∧
     ((doc_path <$> top_level docs) `sublist_of` (doc_path <$> docs)) ∧
     (∀ r cs, r ∈ all_entries reg → routes r = Some cs →
        path <$> cs = doc_path <$> children_of docs (path r) ∧
        (path <$> cs) `sublist_of` (doc_path <$> docs))) ∧
  (∀ tree knownPages out,
     composeSidebar tree knownPages = inr out → out = tree).
Proof.
  split.
  - intros docs reg Hb. split_and!.
    + by apply buildRoutes_top_paths.
    + apply top_level_paths_sublist.
    + intros r cs Hr Hcs.
      rewrite (buildRoutes_children_order _ _ _ _ Hb Hr Hcs).
      split; [done|apply children_paths_sublist].
  - intros tree known out. rewrite composeSidebar_spec.
    destruct (first_unknown _ _); [discriminate|]. by intros [= <-].
Qed.

Lemma sibling_order_example :
  path <$> [ prefix_entry "/docs" [leaf_entry "/docs/b"; leaf_entry "/docs/a"];
             leaf_entry "/blog"; root_entry; fallback_entry ]
  = ["/docs"; "/blog"; "/"; "*"] ∧
  path <$> [leaf_entry "/docs/b"; leaf_entry "/docs/a"]
  = ["/docs/b"; "/docs/a"] ∧
  [Category "Guides" true [Doc "docs/b"; Doc "docs/a"]]
  = [Category "Guides" true [Doc "docs/b"; Doc "docs/a"]].
Proof.
  pose (docs := [ mkDocument "/docs" None;
                  mkDocument "/docs/b" (Some "/docs");
                  mkDocument "/blog" None;
                  mkDocument "/docs/a" (Some "/docs") ]).
  pose (reg := [ prefix_entry "/docs"
                   [leaf_entry "/docs/b"; leaf_entry "/docs/a"];
                 leaf_entry "/blog"; root_entry; fallback_entry ]).
  assert (buildRoutes docs = inr reg) as Hb by (vm_compute; reflexivity).
  destruct (proj1 sibling_order_follows_input docs reg Hb)
    as (Htop & _ & Hchildren).
  split_and!.
  - exact Htop.
  - refine (proj1 (Hchildren (prefix_entry "/docs" _) _ _ eq_refl)).
    apply list_elem_of_here.
  - apply (proj2 sibling_order_follows_input _ {["docs/a"; "docs/b"]}).
    vm_compute. reflexivity.
Defined.
